(** * obj_to_usdz: the OBJ-with-vertex-colours to USDZ converter

    A shallow embedding of [src/obj_to_usdz.py] and the properties of its
    parser ([parse_obj_with_colors]), its packager ([create_usdz]) and its
    driver ([main]).

    Conventions of the model.
    - A Python [str] is a [string]; the text of the input file is ASCII, so
      one [ascii] is one character.
    - A Python [int] is a [Z]; a Python list is a [list].
    - Python's [float] is an interface ([PyFloat]): the built-in [float()]
      and the single-precision narrowing done by [Gf.Vec3f] belong to the
      interpreter and to the USD bindings, not to this repository.
    - Exceptions, [print] and the file system are threaded through a small
      state-and-error monad [Py]. *)

From Stdlib Require Import ZArith QArith Ascii.
From stdpp Require Import base option list strings gmap.

Local Open Scope Z_scope.

(** ** Python string built-ins used by the converter *)

Module PyStr.

(** [str.isspace] on one ASCII character: TAB, LF, VT, FF, CR, the four
    separators FS, GS, RS, US and the space. *)
Definition isspace (c : ascii) : bool :=
  let n := N_of_ascii c in
  ((9 <=? n)%N && (n <=? 13)%N) || ((28 <=? n)%N && (n <=? 32)%N).

(** [s.lstrip()], [s.rstrip()] and [s.strip()]. *)
Fixpoint lstrip (s : string) : string :=
  match s with
  | EmptyString => EmptyString
  | String c s' => if isspace c then lstrip s' else s
  end.

Fixpoint rstrip (s : string) : string :=
  match s with
  | EmptyString => EmptyString
  | String c s' =>
      match rstrip s' with
      | EmptyString => if isspace c then EmptyString else String c EmptyString
      | r => String c r
      end
  end.

Definition strip (s : string) : string := rstrip (lstrip s).

(** [s.startswith(p)], and [s.endswith(p)]: some suffix of [s] is [p]. *)
Fixpoint startswith (s p : string) : bool :=
  match p, s with
  | EmptyString, _ => true
  | String _ _, EmptyString => false
  | String a p', String c s' => Ascii.eqb c a && startswith s' p'
  end.

Fixpoint endswith (s p : string) : bool :=
  String.eqb s p ||
  match s with
  | EmptyString => false
  | String _ s' => endswith s' p
  end.

(** [s.split()]: the maximal runs of characters that are not white space. *)
Fixpoint split_go (cur : option string) (s : string) : list string :=
  match s with
  | EmptyString => option_list cur
  | String c s' =>
      if isspace c then option_list cur ++ split_go None s'
      else split_go (Some (from_option (λ w, w +:+ String c EmptyString)
                                       (String c EmptyString) cur)) s'
  end.

Definition split (s : string) : list string := split_go None s.

(** [s.split(sep)] for a separator of one character: never empty. *)
Fixpoint split_on (sep : ascii) (s : string) : list string :=
  match s with
  | EmptyString => [EmptyString]
  | String c s' =>
      if Ascii.eqb c sep then EmptyString :: split_on sep s'
      else match split_on sep s' with
           | w :: ws => String c w :: ws
           | [] => [String c EmptyString]
           end
  end.

(** [s.replace(old, new)] for a non-empty [old]: the occurrences of [old]
    are found from the left, without overlap. [skip] counts the characters
    of a matched occurrence that are still to be passed over. *)
Fixpoint replace_go (old new : string) (skip : nat) (s : string) : string :=
  match s with
  | EmptyString => EmptyString
  | String c s' =>
      match skip with
      | S k => replace_go old new k s'
      | O =>
          if startswith s old
          then new +:+ replace_go old new (Nat.pred (String.length old)) s'
          else String c (replace_go old new O s')
      end
  end.

Definition replace (s old new : string) : string := replace_go old new O s.

(** The value of a decimal digit. *)
Definition digit (c : ascii) : option Z :=
  let n := N_of_ascii c in
  if ((48 <=? n)%N && (n <=? 57)%N) then Some (Z.of_N n - 48) else None.

(** The digits of an integer literal: digits, with single underscores
    allowed between two digits. [prev] tells that the previous character
    was a digit; [n] counts the digits read. *)
Fixpoint int_digits (acc : Z) (n : nat) (prev : bool) (s : string)
  : option (Z * nat) :=
  match s with
  | EmptyString => if prev then Some (acc, n) else None
  | String c s' =>
      match digit c with
      | Some d => int_digits (10 * acc + d) (S n) true s'
      | None =>
          if Ascii.eqb c "_" && prev then int_digits acc n false s' else None
      end
  end.

(** The interpreter's default bound on the digits of an integer string. *)
Definition int_max_str_digits : nat := 4300.

Definition int_unsigned (s : string) : option Z :=
  '(v, n) ← int_digits 0 O false s;
  if (int_max_str_digits <? n)%nat then None else Some v.

(** [int(s)] in base ten; [None] stands for [ValueError]. *)
Definition int (s : string) : option Z :=
  match strip s with
  | String "-" d => Z.opp <$> int_unsigned d
  | String "+" d => int_unsigned d
  | d => int_unsigned d
  end.

(** [for line in f] on a text file opened with universal newlines: a line
    ends at LF, CR or CRLF, and a last line without terminator is still a
    line. Each line keeps its terminator, translated to LF. *)
Definition LF : ascii := "010".
Definition CR : ascii := "013".

Fixpoint readlines_go (cur : string) (after_cr : bool) (s : string)
  : list string :=
  match s with
  | EmptyString =>
      match cur with EmptyString => [] | _ => [cur] end
  | String c s' =>
      if Ascii.eqb c LF then
        if after_cr then readlines_go EmptyString false s'
        else (cur +:+ String LF EmptyString) :: readlines_go EmptyString false s'
      else if Ascii.eqb c CR then
        (cur +:+ String LF EmptyString) :: readlines_go EmptyString true s'
      else readlines_go (cur +:+ String c EmptyString) false s'
  end.

Definition readlines (s : string) : list string :=
  readlines_go EmptyString false s.

End PyStr.

(** [os.path.basename] on a POSIX system. *)
Module OsPath.

Fixpoint has_sep (p : string) : bool :=
  match p with
  | EmptyString => false
  | String c p' => Ascii.eqb c "/" || has_sep p'
  end.

(** [basename(p)] is [p[i:]] for [i = p.rfind('/') + 1]: the part of [p]
    after its last slash. *)
Fixpoint basename (p : string) : string :=
  match p with
  | EmptyString => EmptyString
  | String _ p' => if has_sep p then basename p' else p
  end.

End OsPath.

(** ** Floating point, as the interpreter and the USD bindings provide it *)

Class PyFloat := {
  (** Python's [float] values. *)
  float : Type;
  (** [float(s)]; [None] stands for [ValueError]. *)
  float_of_str : string → option float;
  (** The literal [1.0]. *)
  float_one : float;
  (** The single-precision components of [Gf.Vec3f] and [Vt.FloatArray]. *)
  float32 : Type;
  (** The narrowing of a Python float to single precision. *)
  to_float32 : float → float32
}.

(** ** Exceptions and results *)

Inductive exn : Type :=
  | ValueError             (* raised by [int()], [float()] and text decoding *)
  | OSError                (* raised by the file system and by [zipfile] *)
  | UsdError               (* any exception that the USD bindings raise *)
  | SystemExit (code : Z). (* raised by [sys.exit(code)] *)

(** [except Exception] catches everything but [SystemExit]. *)
Definition is_Exception (e : exn) : bool :=
  match e with SystemExit _ => false | _ => true end.

Inductive res (A : Type) : Type :=
  | Ok (a : A)
  | Raise (e : exn).
Arguments Ok {A} a.
Arguments Raise {A} e.

(** The pure error monad, for the code that neither prints nor touches a
    file. *)
#[global] Instance res_ret : MRet res := @Ok.
#[global] Instance res_bind : MBind res :=
  λ A B k m, match m with Ok a => k a | Raise e => Raise e end.

(** [T(s)] for a built-in conversion [T] that raises [ValueError]. *)
Definition or_ValueError {A} (o : option A) : res A :=
  match o with Some a => Ok a | None => Raise ValueError end.

(** A [for] loop whose body can raise: left to right, stopping at the first
    exception. *)
Fixpoint res_mapM {A B} (f : A → res B) (l : list A) : res (list B) :=
  match l with
  | [] => Ok []
  | x :: l' => y ← f x; ys ← res_mapM f l'; Ok (y :: ys)
  end.

Section Converter.
Context `{PyFloat}.

(** ** Data *)

Definition vec3 : Type := float * float * float.
Definition vec3f : Type := float32 * float32 * float32.

(** A face is the Python list of its 0-based vertex indices. *)
Definition face : Type := list Z.

(** The three lists returned by the parser. *)
Record mesh : Type := Mesh {
  vertices : list vec3;
  colors : list vec3;
  faces : list face
}.

(** The USD layer that [create_usdz] authors: the default prim, the up
    axis and the attributes of the one mesh prim. *)
Inductive token : Type := tok_y | tok_vertex.

Record usd_mesh : Type := UsdMesh {
  points : list vec3f;
  faceVertexCounts : list Z;
  faceVertexIndices : list Z;
  displayColor : list vec3f;
  displayColor_interpolation : token;
  displayOpacity : list float32;
  displayOpacity_interpolation : token
}.

Record usd_layer : Type := UsdLayer {
  defaultPrim : option string;
  upAxis : option token;
  prims : list (string * usd_mesh)
}.

(** The layer on disk right after [Usd.Stage.CreateNew]. *)
Definition empty_layer : usd_layer :=
  {| defaultPrim := None; upAxis := None; prims := [] |}.

(** ZIP archives, as [zipfile] writes them. *)
Inductive compression : Type := ZIP_STORED | ZIP_DEFLATED.

(** What a path of the file system holds. A ZIP entry is its name, its
    compression method and the content of the file that was added. *)
Inductive file : Type :=
  | TextFile (text : string)
  | UsdFile (layer : usd_layer)
  | ZipArchive (entries : list zip_entry)
  | Truncated
with zip_entry : Type :=
  | ZipEntry (arcname : string) (compress_type : compression) (data : file).

(** What the script prints, one constructor per [print] of the source. *)
Inductive msg : Type :=
  | DebugVertex (n : Z) (pos col : vec3)
  | DebugNoColor (n : Z)
  | CreatedUsd (path : string)
  | CreatedUsdz (path : string)
  | WarnFailedUsdz (e : exn)
  | SavedAsUsdc (path : string)
  | Usage
  | InputNotFound (path : string)
  | ReadingObj (path : string)
  | Parsed (nv nc nf : nat)
  | NoVertices
  | WarnColorCount (nc nv : nat)
  | CreatingUsdz (path : string)
  | Complete.

(** ** The world and the monad *)

Record world : Type := World {
  files : gmap string file;
  stdout : list msg
}.

Definition Py (A : Type) : Type := world → res A * world.

#[global] Instance Py_ret : MRet Py := λ A a w, (Ok a, w).
#[global] Instance Py_bind : MBind Py :=
  λ A B k m w, match m w with
               | (Ok a, w') => k a w'
               | (Raise e, w') => (Raise e, w')
               end.

Definition raise {A} (e : exn) : Py A := λ w, (Raise e, w).
Definition lift {A} (r : res A) : Py A := λ w, (r, w).

(** [try: body  except Exception as e: handler(e)]. *)
Definition try_except {A} (body : Py A) (handler : exn → Py A) : Py A :=
  λ w, match body w with
       | (Raise e, w') =>
           if is_Exception e then handler e w' else (Raise e, w')
       | r => r
       end.

Definition print (m : msg) : Py unit :=
  λ w, (Ok tt, {| files := files w; stdout := stdout w ++ [m] |}).

Definition sys_exit {A} (code : Z) : Py A := raise (SystemExit code).

Definition when (b : bool) (m : Py unit) : Py unit :=
  if b then m else mret tt.

(** A [for] loop that carries the local variables [st] from one iteration
    to the next and stops at the first exception. *)
Fixpoint for_each {A S} (body : A → S → Py S) (l : list A) (st : S) : Py S :=
  match l with
  | [] => mret st
  | x :: l' => st' ← body x st; for_each body l' st'
  end.

(** ** [parse_obj_with_colors] *)

(** The local variables of the parser's loop. *)
Record parser_state : Type := ParserState {
  st_vertices : list vec3;
  st_colors : list vec3;
  st_faces : list face;
  vertex_count : Z
}.

Definition parser_init : parser_state :=
  {| st_vertices := []; st_colors := []; st_faces := []; vertex_count := 0 |}.

(** [parts[i]], for an [i] that the guards of the source keep in range. *)
Definition item (parts : list string) (i : nat) : string := nth i parts "".

(** [float(parts[i])]. *)
Definition float_item (parts : list string) (i : nat) : res float :=
  or_ValueError (float_of_str (item parts i)).

(** The branch [parts[0] == 'v']. *)
Definition parse_vertex (parts : list string) (st : parser_state)
  : Py parser_state :=
  let n := vertex_count st + 1 in
  if (7 <=? length parts)%nat then
    x ← lift (float_item parts 1);
    y ← lift (float_item parts 2);
    z ← lift (float_item parts 3);
    r ← lift (float_item parts 4);
    g ← lift (float_item parts 5);
    b ← lift (float_item parts 6);
    when (n <=? 3) (print (DebugVertex n (x, y, z) (r, g, b)));;
    mret {| st_vertices := st_vertices st ++ [(x, y, z)];
            st_colors := st_colors st ++ [(r, g, b)];
            st_faces := st_faces st;
            vertex_count := n |}
  else if (4 <=? length parts)%nat then
    x ← lift (float_item parts 1);
    y ← lift (float_item parts 2);
    z ← lift (float_item parts 3);
    when (n <=? 3) (print (DebugNoColor n));;
    mret {| st_vertices := st_vertices st ++ [(x, y, z)];
            st_colors := st_colors st ++ [(float_one, float_one, float_one)];
            st_faces := st_faces st;
            vertex_count := n |}
  else
    mret {| st_vertices := st_vertices st;
            st_colors := st_colors st;
            st_faces := st_faces st;
            vertex_count := n |}.

(** [int(vertex_data.split('/')[0]) - 1]: the 0-based index of one vertex
    reference. *)
Definition vertex_index (vertex_data : string) : res Z :=
  vertex_idx ← or_ValueError (PyStr.int (hd "" (PyStr.split_on "/" vertex_data)));
  Ok (vertex_idx - 1).

(** The loop over [parts[1:]] that fills [face_indices]. *)
Definition face_indices (parts : list string) : res face :=
  res_mapM vertex_index (tail parts).

(** The triangles appended for one face: the face itself when it has three
    indices, the fan [range(1, len(face_indices) - 1)] when it has more,
    nothing when it has fewer. *)
Definition triangulate (fi : face) : list face :=
  if (length fi =? 3)%nat then [fi]
  else if (3 <? length fi)%nat then
    (λ i, [nth 0 fi 0; nth i fi 0; nth (i + 1) fi 0]) <$> seq 1 (length fi - 2)
  else [].

(** The branch [parts[0] == 'f']. *)
Definition parse_face (parts : list string) (st : parser_state)
  : Py parser_state :=
  fi ← lift (face_indices parts);
  mret {| st_vertices := st_vertices st;
          st_colors := st_colors st;
          st_faces := st_faces st ++ triangulate fi;
          vertex_count := vertex_count st |}.

(** The body of [for line in f]. *)
Definition process_line (line : string) (st : parser_state)
  : Py parser_state :=
  let line := PyStr.strip line in
  if String.eqb line "" || PyStr.startswith line "#" then mret st
  else
    let parts := PyStr.split line in
    match parts with
    | [] => mret st
    | tok :: _ =>
        if String.eqb tok "v" then parse_vertex parts st
        else if String.eqb tok "f" then parse_face parts st
        else mret st
    end.

(** The parser on the text of the file. *)
Definition parse_text (text : string) : Py mesh :=
  st ← for_each process_line (PyStr.readlines text) parser_init;
  mret {| vertices := st_vertices st;
          colors := st_colors st;
          faces := st_faces st |}.

(** [open(obj_path, 'r')]: a missing file is an [OSError]; a file that is
    not text does not decode ([UnicodeDecodeError] is a [ValueError]). *)
Definition open_read (path : string) : Py string :=
  λ w, match files w !! path with
       | Some (TextFile text) => (Ok text, w)
       | Some _ => (Raise ValueError, w)
       | None => (Raise OSError, w)
       end.

Definition parse_obj_with_colors (obj_path : string) : Py mesh :=
  text ← open_read obj_path;
  parse_text text.

(** ** The environment of [create_usdz]

    The USD bindings and the file system can fail for reasons that the
    script does not control (an extension without a file format, a
    directory that cannot be written, a full disk). [env] fixes which of
    the calls fail in a run. *)

Inductive zip_fault : Type :=
  | ZipOk
  | ZipOpenFails   (* the archive cannot be opened for writing *)
  | ZipWriteFails. (* the archive is opened, and writing the entry fails *)

Record env : Type := Env {
  usd_create_ok : string → bool;  (* [Usd.Stage.CreateNew(path)] succeeds *)
  usd_save_ok : string → bool;    (* saving the root layer at [path] succeeds *)
  zip_status : zip_fault;
  remove_ok : bool                (* [os.remove] succeeds *)
}.

Context (E : env).

Definition set_file (path : string) (f : file) (w : world) : world :=
  {| files := <[path := f]> (files w); stdout := stdout w |}.

(** [Usd.Stage.CreateNew(path)]: the new layer is on disk, empty, as soon as
    the stage exists. *)
Definition Stage_CreateNew (path : string) : Py unit :=
  λ w, if usd_create_ok E path then (Ok tt, set_file path (UsdFile empty_layer) w)
       else (Raise UsdError, w).

(** [stage.GetRootLayer().Save()]. *)
Definition Layer_Save (path : string) (layer : usd_layer) : Py unit :=
  λ w, if usd_save_ok E path then (Ok tt, set_file path (UsdFile layer) w)
       else (Raise UsdError, w).

(** [Vt.IntArray(l)]: the elements are C [int]s, and the bindings refuse a
    Python integer that does not fit. *)
Definition fits_int (z : Z) : bool := (- 2147483648 <=? z) && (z <=? 2147483647).

Definition Vt_IntArray (l : list Z) : res (list Z) :=
  if forallb fits_int l then Ok l else Raise UsdError.

(** [Gf.Vec3f(v[0], v[1], v[2])]. *)
Definition Gf_Vec3f (v : vec3) : vec3f :=
  (to_float32 v.1.1, to_float32 v.1.2, to_float32 v.2).

(** The attributes that [create_usdz] sets on [/World/Mesh], in the order of
    the source. *)
Definition author_mesh (vertices colors : list vec3) (faces : list face)
  : res usd_mesh :=
  let points := Gf_Vec3f <$> vertices in
  face_vertex_counts ← Vt_IntArray ((λ face, Z.of_nat (length face)) <$> faces);
  face_vertex_indices ← Vt_IntArray (concat faces);
  let color_array := Gf_Vec3f <$> colors in
  let opacity_array := to_float32 <$> replicate (length colors) float_one in
  Ok {| points := points;
        faceVertexCounts := face_vertex_counts;
        faceVertexIndices := face_vertex_indices;
        displayColor := color_array;
        displayColor_interpolation := tok_vertex;
        displayOpacity := opacity_array;
        displayOpacity_interpolation := tok_vertex |}.

Definition author_layer (vertices colors : list vec3) (faces : list face)
  : res usd_layer :=
  mesh ← author_mesh vertices colors faces;
  Ok {| defaultPrim := Some "/World";
        upAxis := Some tok_y;
        prims := [("/World/Mesh", mesh)] |}.

(** [with zipfile.ZipFile(zip_path, 'w', compression) as zipf:
       zipf.write(filename, arcname)]:
    a new archive whose one entry holds the content of [filename]. The
    archive file exists from the moment it is opened. *)
Definition ZipFile_write (zip_path : string) (method : compression)
    (filename arcname : string) : Py unit :=
  λ w, match zip_status E with
       | ZipOpenFails => (Raise OSError, w)
       | ZipWriteFails => (Raise OSError, set_file zip_path Truncated w)
       | ZipOk =>
           match files w !! filename with
           | Some data =>
               (Ok tt, set_file zip_path
                         (ZipArchive [ZipEntry arcname method data]) w)
           | None => (Raise OSError, set_file zip_path (ZipArchive []) w)
           end
       end.

Definition os_path_exists (path : string) : Py bool :=
  λ w, (Ok (bool_decide (is_Some (files w !! path))), w).

Definition os_remove (path : string) : Py unit :=
  λ w, if remove_ok E && bool_decide (is_Some (files w !! path))
       then (Ok tt, {| files := delete path (files w); stdout := stdout w |})
       else (Raise OSError, w).

(** ** [create_usdz] *)

Definition intermediate_of (output_path : string) : string :=
  if PyStr.endswith output_path ".usdz"
  then PyStr.replace output_path ".usdz" ".usdc"
  else output_path.

Definition create_usdz (vertices colors : list vec3) (faces : list face)
    (output_path : string) : Py unit :=
  let intermediate_path := intermediate_of output_path in
  Stage_CreateNew intermediate_path;;
  layer ← lift (author_layer vertices colors faces);
  Layer_Save intermediate_path layer;;
  print (CreatedUsd intermediate_path);;
  when (PyStr.endswith output_path ".usdz")
    (try_except
       (let arcname := OsPath.basename intermediate_path in
        ZipFile_write output_path ZIP_STORED intermediate_path arcname;;
        print (CreatedUsdz output_path);;
        present ← os_path_exists intermediate_path;
        when present (os_remove intermediate_path))
       (λ e,
        print (WarnFailedUsdz e);;
        print (SavedAsUsdc intermediate_path))).

(** ** [main] *)

Definition main (argv : list string) : Py unit :=
  if negb (length argv =? 3)%nat then
    print Usage;; sys_exit 1
  else
    let input_path := item argv 1 in
    let output_path := item argv 2 in
    present ← os_path_exists input_path;
    if negb present then
      print (InputNotFound input_path);; sys_exit 1
    else
      print (ReadingObj input_path);;
      m ← parse_obj_with_colors input_path;
      print (Parsed (length (vertices m)) (length (colors m)) (length (faces m)));;
      if (length (vertices m) =? 0)%nat then
        print NoVertices;; sys_exit 1
      else
        when (negb (length (colors m) =? length (vertices m))%nat)
          (print (WarnColorCount (length (colors m)) (length (vertices m))));;
        print (CreatingUsdz output_path);;
        create_usdz (vertices m) (colors m) (faces m) output_path;;
        print Complete.

(** The exit status of the process: 0 when [main] returns, the argument of
    [sys.exit], and 1 for an exception that nothing catches. *)
Definition exit_status {A} (r : res A) : Z :=
  match r with
  | Ok _ => 0
  | Raise (SystemExit code) => code
  | Raise _ => 1
  end.

Definition run (argv : list string) (w : world) : Z * world :=
  let '(r, w') := main argv w in (exit_status r, w').

End Converter.

(** ** An instance for running the model: decimal literals

    [float()] on the plain decimal literals [[+-]digits[.digits]], valued in
    the rationals in lowest terms. It stands for the interpreter's floats in the examples
    below, which use no other literal. *)
Module Decimal.

Fixpoint digits (acc : Z) (n : nat) (s : string) : option (Z * nat) :=
  match s with
  | EmptyString => Some (acc, n)
  | String c s' =>
      d ← PyStr.digit c; digits (10 * acc + d) (S n) s'
  end.

Definition unsigned (s : string) : option Q :=
  match PyStr.split_on "." s with
  | [i] =>
      '(v, n) ← digits 0 O i;
      if n is O then None else Some (inject_Z v)
  | [i; f] =>
      '(v, n) ← digits 0 O i;
      '(u, k) ← digits v O f;
      if (n + k)%nat is O then None
      else Some (Qred (Qmake u (Z.to_pos (10 ^ Z.of_nat k))))
  | _ => None
  end.

Definition of_str (s : string) : option Q :=
  match s with
  | String "-" d => Qopp <$> unsigned d
  | String "+" d => unsigned d
  | d => unsigned d
  end.

#[global] Instance py_float : PyFloat :=
  {| float := Q;
     float_of_str := of_str;
     float_one := inject_Z 1;
     float32 := Q;
     to_float32 := id |}.

End Decimal.
(** ** The records of an input text

    The notions in which the properties below are stated. They are read off
    the loop of the parser: which lines it looks at, and which fields of a
    record it converts. *)

Section Records.
Context `{PyFloat}.

(** The fields of a line: [parts] for a line that reaches the
    classification by [parts[0]], and no field at all for a line that the
    loop skips (an empty line or a comment). *)
Definition fields (line : string) : list string :=
  let line := PyStr.strip line in
  if String.eqb line "" || PyStr.startswith line "#" then []
  else PyStr.split line.

Definition records (text : string) : list (list string) :=
  fields <$> PyStr.readlines text.

Definition is_v (parts : list string) : bool := String.eqb (hd "" parts) "v".
Definition is_f (parts : list string) : bool := String.eqb (hd "" parts) "f".

(** The [v] records with enough fields to give a vertex, and the [f]
    records, in the order of the text. *)
Definition vertex_records (text : string) : list (list string) :=
  filter (λ parts, is_v parts && (4 <=? length parts)%nat = true) (records text).

Definition face_records (text : string) : list (list string) :=
  filter (λ parts, is_f parts = true) (records text).

(** The positions of the fields that the parser converts with [float()]:
    [parts[1..6]] with seven fields or more, [parts[1..3]] with four to
    six. *)
Definition float_positions (parts : list string) : list nat :=
  if (7 <=? length parts)%nat then [1; 2; 3; 4; 5; 6]%nat
  else if (4 <=? length parts)%nat then [1; 2; 3]%nat
  else [].

Definition numeric (s : string) : bool :=
  bool_decide (is_Some (float_of_str s)).

Definition integral (vertex_data : string) : bool :=
  bool_decide (is_Some (PyStr.int (hd "" (PyStr.split_on "/" vertex_data)))).

(** A [v] record that gives a vertex: every converted field is numeric. *)
Definition parsable_vertex (parts : list string) : bool :=
  is_v parts && (4 <=? length parts)%nat
  && forallb (λ i, numeric (item parts i)) (float_positions parts).

(** A malformed record: a [v] record with a converted field that is not
    numeric, or an [f] record with a reference that is not an integer. *)
Definition bad_vertex (parts : list string) : bool :=
  is_v parts && existsb (λ i, negb (numeric (item parts i))) (float_positions parts).

Definition bad_face (parts : list string) : bool :=
  is_f parts && existsb (λ vertex_data, negb (integral vertex_data)) (tail parts).

Definition bad_record (parts : list string) : bool :=
  bad_vertex parts || bad_face parts.

(** A record that is too short to give anything: a [v] record with fewer
    than four fields, an [f] record with fewer than three references, all
    of them integers. *)
Definition short_record (parts : list string) : bool :=
  (is_v parts && (length parts <? 4)%nat)
  || (is_f parts && (length (tail parts) <? 3)%nat
      && forallb integral (tail parts)).

(** The colour that the specification gives to a [v] record. *)
Definition is_color_of (parts : list string) (c : vec3) : Prop :=
  ((7 ≤ length parts)%nat →
     float_of_str (item parts 4) = Some c.1.1 ∧
     float_of_str (item parts 5) = Some c.1.2 ∧
     float_of_str (item parts 6) = Some c.2)
  ∧ ((length parts < 7)%nat → c = (float_one, float_one, float_one)).

(** The examples of the specification. *)
Definition quad_text : string := "f 1 2 3 4".

Definition scenario_text : string :=
  "v 1 2 3 0.5 0.5 0.5" +:+ String PyStr.LF
    ("v 4 5 6" +:+ String PyStr.LF
       ("f 1 2 1" +:+ String PyStr.LF
          ("f 1 2 3" +:+ String PyStr.LF ""))).

End Records.

(** ** Worlds and environments of the examples *)

Module Examples.
Import Decimal.

(** Nothing fails. *)
Definition env_ok : env :=
  {| usd_create_ok := λ _, true; usd_save_ok := λ _, true;
     zip_status := ZipOk; remove_ok := true |}.

(** Writing the entry of the archive fails. *)
Definition env_zip_fails : env :=
  {| usd_create_ok := λ _, true; usd_save_ok := λ _, true;
     zip_status := ZipWriteFails; remove_ok := true |}.

Definition no_files : world := {| files := ∅; stdout := [] |}.

(** A directory that holds the scenario of the specification. *)
Definition scenario_world : world :=
  {| files := {[ "scene.obj" := TextFile scenario_text ]}; stdout := [] |}.

Definition argv_scenario : list string :=
  ["obj_to_usdz.py"; "scene.obj"; "scene.usdz"].

(** The mesh of the scenario. *)
Definition scenario_mesh : mesh :=
  {| vertices := [(inject_Z 1, inject_Z 2, inject_Z 3);
                  (inject_Z 4, inject_Z 5, inject_Z 6)];
     colors := [(Qmake 1 2, Qmake 1 2, Qmake 1 2);
                (inject_Z 1, inject_Z 1, inject_Z 1)];
     faces := [[0; 1; 0]; [0; 1; 2]] |}.

Definition quad_mesh : mesh :=
  {| vertices := []; colors := []; faces := [[0; 1; 2]; [0; 2; 3]] |}.

(** One malformed record each: a coordinate that is not a number, a
    reference that is not an integer. *)
Definition bad_vertex_text : string :=
  "v 1 2 x" +:+ String PyStr.LF "v 4 5 6".

Definition bad_face_text : string :=
  "v 1 2 3" +:+ String PyStr.LF "f 1 x 3".

Definition bad_vertex_world : world :=
  {| files := {[ "scene.obj" := TextFile bad_vertex_text ]}; stdout := [] |}.

(** A text without any [v] record. *)
Definition quad_world : world :=
  {| files := {[ "scene.obj" := TextFile quad_text ]}; stdout := [] |}.

(** The layer that the packager authors for the scenario. *)
Definition scenario_usd_mesh : usd_mesh :=
  {| points := vertices scenario_mesh;
     faceVertexCounts := [3; 3];
     faceVertexIndices := [0; 1; 0; 0; 1; 2];
     displayColor := colors scenario_mesh;
     displayColor_interpolation := tok_vertex;
     displayOpacity := [inject_Z 1; inject_Z 1];
     displayOpacity_interpolation := tok_vertex |}.

Definition scenario_layer : usd_layer :=
  {| defaultPrim := Some "/World";
     upAxis := Some tok_y;
     prims := [("/World/Mesh", scenario_usd_mesh)] |}.

(** What the script prints on the scenario when nothing fails. *)
Definition scenario_stdout : list msg :=
  [ReadingObj "scene.obj";
   DebugVertex 1 (inject_Z 1, inject_Z 2, inject_Z 3)
                 (Qmake 1 2, Qmake 1 2, Qmake 1 2);
   DebugNoColor 2;
   Parsed 2 2 2;
   CreatingUsdz "scene.usdz";
   CreatedUsd "scene.usdc";
   CreatedUsdz "scene.usdz";
   Complete].

End Examples.

(** ** The driver after the parser

    The statements of [main] that follow the call of the parser, as a
    function of the mesh; [main_text] below shows that [main] runs them. *)

Section Convert.
Context `{PyFloat}.

Definition convert (E : env) (m : mesh) (output_path : string) : Py unit :=
  print (Parsed (length (vertices m)) (length (colors m)) (length (faces m)));;
  if (length (vertices m) =? 0)%nat then
    print NoVertices;; sys_exit 1
  else
    when (negb (length (colors m) =? length (vertices m))%nat)
      (print (WarnColorCount (length (colors m)) (length (vertices m))));;
    print (CreatingUsdz output_path);;
    create_usdz E (vertices m) (colors m) (faces m) output_path;;
    print Complete.

End Convert.

(** ** Further notions for the parser and the driver *)

Section MoreNotions.
Context `{PyFloat}.

(** The position that a [v] record gives: fields 2 to 4, converted by
    [float()]. *)
Definition is_position_of (parts : list string) (v : vec3) : Prop :=
  float_of_str (item parts 1) = Some v.1.1 ∧
  float_of_str (item parts 2) = Some v.1.2 ∧
  float_of_str (item parts 3) = Some v.2.

(** The records that the loop of the parser acts on. *)
Definition relevant (parts : list string) : bool := is_v parts || is_f parts.

(** The loop body, as a function of the fields of the line. *)
Definition record_step (parts : list string) (st : parser_state)
  : Py parser_state :=
  match parts with
  | [] => mret st
  | tok :: _ =>
      if String.eqb tok "v" then parse_vertex parts st
      else if String.eqb tok "f" then parse_face parts st
      else mret st
  end.

(** The two debug lines of the parser. *)
Definition is_debug (m : msg) : bool :=
  match m with
  | DebugVertex _ _ _ | DebugNoColor _ => true
  | _ => false
  end.

(** How many debug lines the parser can still print: it prints one for
    each of the first three [v] lines, counted by [vertex_count]. *)
Definition debug_budget (st : parser_state) : nat :=
  Z.to_nat (3 - vertex_count st).

(** A computation that leaves alone the files at the paths of [P]. *)
Definition preserves {A} (P : string → Prop) (c : Py A) : Prop :=
  ∀ w path, P path → files (c w).2 !! path = files w !! path.

(** A computation whose exceptions all satisfy [Q]. *)
Definition raises_only {A} (Q : exn → Prop) (c : Py A) : Prop :=
  ∀ w e w', c w = (Raise e, w') → Q e.

(** The archive that [create_usdz] writes for a layer. *)
Definition usdz_archive (output_path : string) (layer : usd_layer) : file :=
  ZipArchive [ZipEntry (OsPath.basename (intermediate_of output_path))
                       ZIP_STORED (UsdFile layer)].

End MoreNotions.

(** ** The caller of the script: [convert_obj_to_usdz]

    [furniture_ar_server_final.py] runs the script as a child process and
    decides from its return code and from the existence of the output.
    The paths are the strings that [str()] gives for the [Path] arguments,
    absolute as the server builds them. *)

Section Server.
Context `{PyFloat}.

(** What [subprocess.run] does: the child runs to its end within the
    timeout; or it cannot be started ([OSError]); or it is killed at the
    timeout ([TimeoutExpired]), leaving the files as they are then. *)
Inductive subprocess_outcome : Type :=
  | ProcessCompletes
  | ProcessCannotStart
  | ProcessTimesOut (remaining : gmap string file).

(** The machine of the server: whether the directory of the output can be
    made, whether the script is where the server looks for it, whether the
    USD bindings can be imported by the script, and what becomes of the
    child process. *)
Record host : Type := Host {
  mkdir_ok : bool;
  script_available : bool;
  pxr_available : bool;
  subprocess_status : subprocess_outcome
}.

(** The lines that [convert_obj_to_usdz] prints. *)
Inductive server_msg : Type :=
  | Converting (name : string)
  | ConversionFailed
  | Created (name : string)
  | NotCreated
  | ConversionError.

Record server_world : Type := ServerWorld {
  server_files : gmap string file;
  server_stdout : list server_msg
}.

Definition OBJ_TO_USDZ_SCRIPT : string := "/home/zliu989/Server/obj_to_usdz.py".

(** The script as a process: the interpreter ends with the return code 2
    when the script is missing; otherwise the script imports the USD
    bindings, guarded at the top of the file by [sys.exit(1)], and calls
    [main()]. The result is the return code and the files; what the child
    prints is captured by the caller and dropped. *)
Definition script_process (Hs : host) (E : env) (argv : list string)
    (fs : gmap string file) : Z * gmap string file :=
  if negb (script_available Hs) then (2, fs)
  else if pxr_available Hs then
    let r := run E argv {| files := fs; stdout := [] |} in (r.1, files r.2)
  else (1, fs).

Definition server_print (m : server_msg) (sw : server_world) : server_world :=
  {| server_files := server_files sw;
     server_stdout := server_stdout sw ++ [m] |}.

Definition convert_obj_to_usdz (Hs : host) (E : env)
    (obj_path usdz_path : string) (sw : server_world) : bool * server_world :=
  let sw := server_print (Converting (OsPath.basename obj_path)) sw in
  if negb (mkdir_ok Hs) then (false, server_print ConversionError sw)
  else
    match subprocess_status Hs with
    | ProcessCannotStart => (false, server_print ConversionError sw)
    | ProcessTimesOut remaining =>
        (false, server_print ConversionError
                  {| server_files := remaining; server_stdout := server_stdout sw |})
    | ProcessCompletes =>
        let '(returncode, fs) :=
          script_process Hs E [OBJ_TO_USDZ_SCRIPT; obj_path; usdz_path]
            (server_files sw) in
        let sw := {| server_files := fs; server_stdout := server_stdout sw |} in
        if negb (returncode =? 0) then (false, server_print ConversionFailed sw)
        else if bool_decide (is_Some (fs !! usdz_path))
             then (true, server_print (Created (OsPath.basename usdz_path)) sw)
             else (false, server_print NotCreated sw)
    end.

End Server.

(** A machine on which nothing fails, and a server that holds the
    scenario. *)
Definition host_ok `{PyFloat} : host :=
  {| mkdir_ok := true; script_available := true; pxr_available := true;
     subprocess_status := ProcessCompletes |}.

Definition scenario_server : server_world (H := Decimal.py_float) :=
  {| server_files := {[ "scene.obj" := TextFile scenario_text ]};
     server_stdout := [] |}.

(** Environments in which one call fails, and two more texts. *)
Definition env_usd_fails : env :=
  {| usd_create_ok := λ _, false; usd_save_ok := λ _, true;
     zip_status := ZipOk; remove_ok := true |}.

Definition env_remove_fails : env :=
  {| usd_create_ok := λ _, true; usd_save_ok := λ _, true;
     zip_status := ZipOk; remove_ok := false |}.

Definition env_zip_cannot_open : env :=
  {| usd_create_ok := λ _, true; usd_save_ok := λ _, true;
     zip_status := ZipOpenFails; remove_ok := true |}.

Definition point_text : string := "v 1 2 3".

Definition point_mesh : mesh (H := Decimal.py_float) :=
  {| vertices := [(inject_Z 1, inject_Z 2, inject_Z 3)];
     colors := [(inject_Z 1, inject_Z 1, inject_Z 1)];
     faces := [] |}.

Definition point_world : world (H := Decimal.py_float) :=
  {| files := {[ "scene.obj" := TextFile point_text ]}; stdout := [] |}.

Definition quad_server : server_world (H := Decimal.py_float) :=
  {| server_files := {[ "scene.obj" := TextFile quad_text ]};
     server_stdout := [] |}.

(** ** Tactics

    Unfolding the monad, and the calls of [create_usdz]. *)

Ltac py_unfold :=
  unfold mbind, mret, Py_bind, Py_ret, res_bind, res_ret, lift, raise,
    when, print, float_item, or_ValueError in *.

Ltac run_unfold :=
  unfold create_usdz, mbind, mret, Py_bind, Py_ret, lift, when, print,
    try_except, Stage_CreateNew, Layer_Save, ZipFile_write, os_path_exists,
    os_remove, set_file.

(** ** Facts about the string built-ins *)

Module PyStrFacts.
Import PyStr.

Lemma app_nil_r (s : string) : s +:+ "" = s.
Proof. induction s as [|c s IH]; [done|]. unfold String.app in *; simpl. by rewrite IH. Qed.

Lemma app_assoc (s t u : string) : (s +:+ t) +:+ u = s +:+ (t +:+ u).
Proof.
  induction s as [|c s IH]; [done|].
  unfold String.app in *; simpl. by rewrite IH.
Qed.

Lemma app_cons (c : ascii) (s t : string) : String c s +:+ t = String c (s +:+ t).
Proof. done. Qed.

Lemma startswith_cons (c a : ascii) (s p : string) :
  startswith (String c s) (String a p) = Ascii.eqb c a && startswith s p.
Proof. done. Qed.

Lemma startswith_nil (s : string) : startswith s "" = true.
Proof. by destruct s. Qed.

Lemma startswith_length (s p : string) :
  startswith s p = true → (String.length p ≤ String.length s)%nat.
Proof.
  revert s; induction p as [|a p IH]; intros [|c s]; simpl; try lia; try done.
  intros [_ Hs]%andb_prop. apply IH in Hs. lia.
Qed.

Lemma endswith_unfold (s p : string) :
  endswith s p =
  String.eqb s p ||
  match s with EmptyString => false | String _ s' => endswith s' p end.
Proof. by destruct s. Qed.

(** [s.endswith(p)] holds exactly when [s] is some [pre + p]. *)
Lemma endswith_app (s p : string) :
  endswith s p = true ↔ ∃ pre, s = pre +:+ p.
Proof.
  split.
  - induction s as [|c s IH]; rewrite endswith_unfold.
    + rewrite orb_false_r. intros ->%String.eqb_eq. by exists "".
    + intros [->%String.eqb_eq | Hs]%orb_prop; [by exists ""|].
      destruct (IH Hs) as [pre ->]. by exists (String c pre).
  - intros [pre ->]. induction pre as [|c pre IH]; rewrite endswith_unfold.
    + change ("" +:+ p) with p. by rewrite String.eqb_refl.
    + rewrite app_cons, IH. apply orb_true_r.
Qed.

(** *** Replacing the extension [.usdz] *)

(** [.usdz] does not overlap itself: an occurrence at the start of
    [pre + ".usdz"], for a non-empty [pre], lies within [pre]. *)
Lemma startswith_usdz_app (c : ascii) (pre : string) :
  startswith (String c pre +:+ ".usdz") ".usdz"
  = startswith (String c pre) ".usdz".
Proof.
  destruct pre as [|c1 [|c2 [|c3 [|c4 pre]]]];
    rewrite !app_cons; change ("" +:+ ".usdz") with ".usdz";
    rewrite ?startswith_cons, ?startswith_nil;
    repeat match goal with
           | |- context [Ascii.eqb ?x ?y] =>
               is_var x; destruct (Ascii.eqb x y)
           end; reflexivity.
Qed.

Lemma replace_go_unfold (old new : string) (skip : nat) (c : ascii) (s : string) :
  replace_go old new skip (String c s) =
  match skip with
  | S k => replace_go old new k s
  | O => if startswith (String c s) old
         then new +:+ replace_go old new (Nat.pred (String.length old)) s
         else String c (replace_go old new O s)
  end.
Proof. done. Qed.

Lemma replace_go_usdz_app (pre : string) (skip : nat) :
  (skip ≤ String.length pre)%nat →
  replace_go ".usdz" ".usdc" skip (pre +:+ ".usdz")
  = replace_go ".usdz" ".usdc" skip pre +:+ ".usdc".
Proof.
  revert skip. induction pre as [|c pre IH]; intros skip Hskip.
  - destruct skip; [reflexivity | simpl in Hskip; lia].
  - rewrite app_cons, !replace_go_unfold. destruct skip as [|k].
    + rewrite <- app_cons, startswith_usdz_app.
      destruct (startswith (String c pre) ".usdz") eqn:Hpre.
      * apply startswith_length in Hpre. simpl in Hpre.
        rewrite IH by (simpl; lia). by rewrite app_assoc.
      * rewrite IH by lia. done.
    + apply IH. simpl in Hskip. lia.
Qed.

(** On a path that ends in [.usdz], [replace] turns the last extension
    into [.usdc] and rewrites what precedes it in the same way. *)
Lemma replace_usdz_app (pre : string) :
  replace (pre +:+ ".usdz") ".usdz" ".usdc"
  = replace pre ".usdz" ".usdc" +:+ ".usdc".
Proof. apply replace_go_usdz_app. lia. Qed.

Lemma app_usdc_ne_usdz (s t : string) : s +:+ ".usdc" ≠ t +:+ ".usdz".
Proof.
  revert t. induction s as [|c s IH]; intros [|a t]; rewrite ?app_cons.
  - done.
  - change ("" +:+ ".usdc") with ".usdc".
    destruct t as [|? [|? [|? [|? [|? ?]]]]]; done.
  - change ("" +:+ ".usdz") with ".usdz".
    destruct s as [|? [|? [|? [|? [|? ?]]]]]; done.
  - intros [= _ Heq]. by eapply IH.
Qed.

Lemma replace_usdz_ne (s : string) :
  endswith s ".usdz" = true → replace s ".usdz" ".usdc" ≠ s.
Proof.
  intros [pre ->]%endswith_app. rewrite replace_usdz_app.
  apply app_usdc_ne_usdz.
Qed.

End PyStrFacts.
(** ** Facts about the monad *)

Section MonadFacts.
Context `{PyFloat}.

Lemma bind_Ok {A B} (m : Py A) (k : A → Py B) (w w' : world) (a : A) :
  m w = (Ok a, w') → (m ≫= k) w = k a w'.
Proof. unfold mbind, Py_bind. by intros ->. Qed.

Lemma bind_Raise {A B} (m : Py A) (k : A → Py B) (w w' : world) (e : exn) :
  m w = (Raise e, w') → (m ≫= k) w = (Raise e, w').
Proof. unfold mbind, Py_bind. by intros ->. Qed.

Lemma bind_inv_Ok {A B} (m : Py A) (k : A → Py B) (w w' : world) (b : B) :
  (m ≫= k) w = (Ok b, w') →
  ∃ a w1, m w = (Ok a, w1) ∧ k a w1 = (Ok b, w').
Proof.
  unfold mbind, Py_bind. destruct (m w) as [[a|e] w1]; [eauto | done].
Qed.

Lemma for_each_app {A S} (body : A → S → Py S) (l1 l2 : list A) (st : S) (w : world) :
  for_each body (l1 ++ l2) st w
  = (for_each body l1 st ≫= for_each body l2) w.
Proof.
  revert st w. induction l1 as [|x l1 IH]; intros st w; simpl.
  - done.
  - unfold mbind, Py_bind. destruct (body x st w) as [[st'|e] w']; [|done].
    apply IH.
Qed.

End MonadFacts.
(** ** Facts about the parser *)

Section ParserFacts.
Context `{PyFloat}.

(** The loop body, by the fields of the line. *)
Lemma process_line_fields (line : string) (st : parser_state) :
  process_line line st =
  match fields line with
  | [] => mret st
  | tok :: _ =>
      if String.eqb tok "v" then parse_vertex (fields line) st
      else if String.eqb tok "f" then parse_face (fields line) st
      else mret st
  end.
Proof.
  unfold process_line, fields.
  by destruct (String.eqb _ "" || PyStr.startswith _ "#").
Qed.

(** What a [v] record does when it returns. *)
Lemma parse_vertex_Ok (parts : list string) (st st' : parser_state) (w w' : world) :
  parse_vertex parts st w = (Ok st', w') →
  files w' = files w ∧ st_faces st' = st_faces st ∧
  (((4 ≤ length parts)%nat ∧
    forallb (λ i, numeric (item parts i)) (float_positions parts) = true ∧
    ∃ v c, st_vertices st' = st_vertices st ++ [v] ∧
           st_colors st' = st_colors st ++ [c] ∧ is_color_of parts c)
   ∨ ((length parts < 4)%nat ∧
      st_vertices st' = st_vertices st ∧ st_colors st' = st_colors st)).
Proof.
  unfold parse_vertex, float_positions, numeric.
  destruct (7 <=? length parts)%nat eqn:H7;
    [apply Nat.leb_le in H7 | apply Nat.leb_gt in H7;
     destruct (4 <=? length parts)%nat eqn:H4;
     [apply Nat.leb_le in H4 | apply Nat.leb_gt in H4]];
    py_unfold;
    repeat match goal with
           | |- context [float_of_str ?s] =>
               let E := fresh "E" in destruct (float_of_str s) eqn:E; simpl
           end;
    try destruct (_ <=? 3); simpl; intros; simplify_eq; simpl;
    (split; [done|split; [done|]]);
    try (right; done);
    left; (split; [lia|]); (split; [done|]);
    eexists _, _; (split; [done|]); (split; [done|]);
    unfold is_color_of; simpl; split; intros; (done || lia).
Qed.

Lemma existsb_negb_forallb {A} (f : A → bool) (l : list A) :
  existsb (λ x, negb (f x)) l = negb (forallb f l).
Proof.
  induction l as [|x l IH]; [done|]. simpl. rewrite IH. by destruct (f x).
Qed.

(** A [v] record raises only [ValueError], on a field that is not
    numeric, before anything is printed. *)
Lemma parse_vertex_Raise (parts : list string) (st : parser_state) (w w' : world) (e : exn) :
  parse_vertex parts st w = (Raise e, w') →
  e = ValueError ∧ w' = w ∧
  existsb (λ i, negb (numeric (item parts i))) (float_positions parts) = true.
Proof.
  unfold parse_vertex, float_positions, numeric.
  destruct (7 <=? length parts)%nat; [|destruct (4 <=? length parts)%nat];
    py_unfold;
    repeat match goal with
           | |- context [float_of_str ?s] =>
               let E := fresh "E" in destruct (float_of_str s) eqn:E; simpl
           end;
    try destruct (_ <=? 3); simpl; intros; simplify_eq; done.
Qed.

Lemma parse_vertex_bad (parts : list string) (st : parser_state) (w : world) :
  existsb (λ i, negb (numeric (item parts i))) (float_positions parts) = true →
  parse_vertex parts st w = (Raise ValueError, w).
Proof.
  intros Hbad. destruct (parse_vertex parts st w) as [[st'|e] w'] eqn:Hrun.
  - apply parse_vertex_Ok in Hrun as (_ & _ & [(_ & Hall & _) | (Hlen & _)]).
    + rewrite existsb_negb_forallb, Hall in Hbad. done.
    + unfold float_positions in Hbad.
      destruct (Nat.leb_spec 7 (length parts)); [lia|].
      destruct (Nat.leb_spec 4 (length parts)); [lia|]. done.
  - by apply parse_vertex_Raise in Hrun as (-> & -> & _).
Qed.

(** The references of an [f] record. *)
Lemma res_mapM_Raise {A B} (f : A → res B) (l : list A) (e : exn) :
  res_mapM f l = Raise e → ∃ x, x ∈ l ∧ f x = Raise e.
Proof.
  induction l as [|x l IH]; simpl; [done|].
  unfold mbind, res_bind. destruct (f x) as [y|e'] eqn:Hx.
  - destruct (res_mapM f l) as [ys|e'']; [done|].
    intros [= ->]. destruct IH as (x' & ? & ?); [done|].
    exists x'. split; [by right | done].
  - intros [= ->]. exists x. split; [by left | done].
Qed.

Lemma res_mapM_bad {A B} (f : A → res B) (l : list A) (x : A) :
  x ∈ l → f x = Raise ValueError →
  (∀ y e, f y = Raise e → e = ValueError) →
  res_mapM f l = Raise ValueError.
Proof.
  intros Hin Hx Hval. induction Hin as [x l | x x' l _ IH]; simpl;
    unfold mbind, res_bind.
  - by rewrite Hx.
  - destruct (f x') as [y|e] eqn:Hx'.
    + by rewrite IH.
    + by rewrite (Hval _ _ Hx').
Qed.

Lemma res_mapM_app {A B} (f : A → res B) (l1 l2 : list A) :
  res_mapM f (l1 ++ l2)
  = (ys1 ← res_mapM f l1; ys2 ← res_mapM f l2; Ok (ys1 ++ ys2)).
Proof.
  induction l1 as [|x l1 IH]; simpl; unfold mbind, res_bind in *.
  - by destruct (res_mapM f l2).
  - destruct (f x); [|done]. rewrite IH.
    destruct (res_mapM f l1); [|done]. by destruct (res_mapM f l2).
Qed.

Lemma res_mapM_length {A B} (f : A → res B) (l : list A) (ys : list B) :
  res_mapM f l = Ok ys → length ys = length l.
Proof.
  revert ys. induction l as [|x l IH]; intros ys; simpl.
  - by intros [= <-].
  - unfold mbind, res_bind. destruct (f x); [|done].
    destruct (res_mapM f l) as [ys'|]; [|done].
    intros [= <-]. simpl. by rewrite (IH ys').
Qed.

Lemma vertex_index_Raise (vertex_data : string) (e : exn) :
  vertex_index vertex_data = Raise e →
  e = ValueError ∧ integral vertex_data = false.
Proof.
  unfold vertex_index, integral. py_unfold.
  destruct (PyStr.int _) eqn:Hint; [done|]. intros [= <-]. split; [done|].
  apply bool_decide_eq_false. by intros [? ?].
Qed.

Lemma vertex_index_bad (vertex_data : string) :
  integral vertex_data = false → vertex_index vertex_data = Raise ValueError.
Proof.
  unfold vertex_index, integral. py_unfold.
  destruct (PyStr.int _); [|done].
  intros Hf%bool_decide_eq_false. destruct Hf. eauto.
Qed.

Lemma face_indices_Raise (parts : list string) (e : exn) :
  face_indices parts = Raise e →
  e = ValueError ∧
  existsb (λ vertex_data, negb (integral vertex_data)) (tail parts) = true.
Proof.
  intros (vd & Hin & [-> Hvd]%vertex_index_Raise)%res_mapM_Raise.
  split; [done|]. apply existsb_exists. exists vd.
  rewrite <- list_elem_of_In. by rewrite Hvd.
Qed.

Lemma face_indices_bad (parts : list string) :
  existsb (λ vertex_data, negb (integral vertex_data)) (tail parts) = true →
  face_indices parts = Raise ValueError.
Proof.
  intros (vd & Hin & Hvd)%existsb_exists. apply list_elem_of_In in Hin.
  apply (res_mapM_bad _ _ vd); [done| |].
  - apply vertex_index_bad. by destruct (integral vd).
  - intros y e [? _]%vertex_index_Raise. done.
Qed.

(** What an [f] record does. *)
Lemma parse_face_Ok (parts : list string) (st st' : parser_state) (w w' : world) :
  parse_face parts st w = (Ok st', w') →
  w' = w ∧ st_vertices st' = st_vertices st ∧ st_colors st' = st_colors st ∧
  ∃ fi, face_indices parts = Ok fi ∧
        st_faces st' = st_faces st ++ triangulate fi.
Proof.
  unfold parse_face. py_unfold. destruct (face_indices parts) as [fi|]; [|done].
  intros [= <- <-]. simpl. eauto 10.
Qed.

Lemma parse_face_Raise (parts : list string) (st : parser_state) (w w' : world) (e : exn) :
  parse_face parts st w = (Raise e, w') →
  w' = w ∧ face_indices parts = Raise e.
Proof.
  unfold parse_face. py_unfold. destruct (face_indices parts) as [fi|]; [done|].
  by intros [= <- <-].
Qed.

(** The three ways of a line. *)
Lemma process_line_cases (line : string) (st : parser_state) (w : world) :
  (is_v (fields line) = true ∧
   process_line line st w = parse_vertex (fields line) st w)
  ∨ (is_v (fields line) = false ∧ is_f (fields line) = true ∧
     process_line line st w = parse_face (fields line) st w)
  ∨ (is_v (fields line) = false ∧ is_f (fields line) = false ∧
     process_line line st w = (Ok st, w)).
Proof.
  rewrite process_line_fields. unfold is_v, is_f.
  destruct (fields line) as [|tok parts]; simpl; [by right; right|].
  destruct (String.eqb tok "v"); [by left|].
  destruct (String.eqb tok "f"); [by right; left | by right; right].
Qed.

Lemma is_v_not_f (parts : list string) : is_v parts = true → is_f parts = false.
Proof. unfold is_v, is_f. by intros ->%String.eqb_eq. Qed.

(** The parser never touches a file. *)
Lemma process_line_files (line : string) (st : parser_state) (w : world) :
  files (process_line line st w).2 = files w.
Proof.
  destruct (process_line_cases line st w)
    as [[_ ->] | [(_ & _ & ->) | (_ & _ & ->)]]; [| |done].
  - destruct (parse_vertex _ st w) as [[st'|e] w'] eqn:Hrun; simpl.
    + by apply parse_vertex_Ok in Hrun as (? & _).
    + by apply parse_vertex_Raise in Hrun as (_ & -> & _).
  - destruct (parse_face _ st w) as [[st'|e] w'] eqn:Hrun; simpl.
    + by apply parse_face_Ok in Hrun as (-> & _).
    + by apply parse_face_Raise in Hrun as (-> & _).
Qed.

Lemma for_each_process_line_files (lines : list string) (st : parser_state) (w : world) :
  files (for_each process_line lines st w).2 = files w.
Proof.
  revert st w. induction lines as [|line lines IH]; intros st w; simpl; [done|].
  unfold mbind, Py_bind. pose proof (process_line_files line st w) as Hline.
  destruct (process_line line st w) as [[st'|e] w']; simpl in *; [|done].
  by rewrite IH.
Qed.

(** A line raises only [ValueError], and only on a malformed record. *)
Lemma process_line_Raise (line : string) (st : parser_state) (w w' : world) (e : exn) :
  process_line line st w = (Raise e, w') →
  e = ValueError ∧ bad_record (fields line) = true.
Proof.
  unfold bad_record, bad_vertex, bad_face.
  destruct (process_line_cases line st w)
    as [[Hv ->] | [(Hv & Hf & ->) | (_ & _ & ->)]]; [| |done].
  - intros (-> & _ & Hbad)%parse_vertex_Raise. by rewrite Hv, Hbad.
  - intros [_ [-> Hbad]%face_indices_Raise]%parse_face_Raise.
    rewrite Hv, Hf, Hbad. done.
Qed.

Lemma process_line_bad (line : string) (st : parser_state) (w : world) :
  bad_record (fields line) = true →
  process_line line st w = (Raise ValueError, w).
Proof.
  unfold bad_record, bad_vertex, bad_face.
  destruct (process_line_cases line st w)
    as [[Hv ->] | [(Hv & Hf & ->) | (Hv & Hf & ->)]];
    rewrite Hv; [rewrite (is_v_not_f _ Hv) | rewrite Hf ..]; simpl;
    rewrite ?orb_false_r; [| |done].
  - apply parse_vertex_bad.
  - intros Hbad%face_indices_bad. unfold parse_face. py_unfold. by rewrite Hbad.
Qed.

Lemma for_each_process_line_Raise (lines : list string) (st : parser_state)
    (w w' : world) (e : exn) :
  for_each process_line lines st w = (Raise e, w') →
  e = ValueError ∧ ∃ line, line ∈ lines ∧ bad_record (fields line) = true.
Proof.
  revert st w. induction lines as [|line lines IH]; intros st w; simpl; [done|].
  unfold mbind, Py_bind.
  destruct (process_line line st w) as [[st1|e1] w1] eqn:Hline.
  - intros (-> & line' & ? & ?)%IH. split; [done|].
    exists line'. split; [by right | done].
  - intros [= -> ->]. apply process_line_Raise in Hline as [-> ?].
    split; [done|]. exists line. split; [by left | done].
Qed.

Lemma for_each_process_line_bad (lines : list string) (line : string)
    (st : parser_state) (w : world) :
  line ∈ lines → bad_record (fields line) = true →
  (for_each process_line lines st w).1 = Raise ValueError.
Proof.
  intros Hin Hbad. revert st w.
  induction Hin as [line lines | line line' lines _ IH]; intros st w; simpl;
    unfold mbind, Py_bind.
  - by rewrite process_line_bad.
  - destruct (process_line line' st w) as [[st1|e1] w1] eqn:Hline; [by apply IH|].
    by apply process_line_Raise in Hline as [-> _].
Qed.

(** The faces after a line, and after the loop. *)
Lemma process_line_faces (line : string) (st st' : parser_state) (w w' : world) :
  process_line line st w = (Ok st', w') →
  ∃ fis, res_mapM face_indices (filter (λ parts, is_f parts = true) [fields line]) = Ok fis
         ∧ st_faces st' = st_faces st ++ concat (triangulate <$> fis).
Proof.
  destruct (process_line_cases line st w)
    as [[Hv ->] | [(Hv & Hf & ->) | (Hv & Hf & ->)]].
  - intros (_ & -> & _)%parse_vertex_Ok. exists [].
    rewrite filter_cons_False by (by rewrite (is_v_not_f _ Hv)).
    by rewrite app_nil_r.
  - intros (_ & _ & _ & fi & Hfi & ->)%parse_face_Ok. exists [fi].
    rewrite filter_cons_True by done. simpl. unfold mbind at 1, res_bind.
    rewrite Hfi. simpl. by rewrite app_nil_r.
  - intros [= <- <-]. exists [].
    rewrite filter_cons_False by (by rewrite Hf). by rewrite app_nil_r.
Qed.

Lemma for_each_process_line_faces (lines : list string) (st st' : parser_state)
    (w w' : world) :
  for_each process_line lines st w = (Ok st', w') →
  ∃ fis, res_mapM face_indices (filter (λ parts, is_f parts = true) (fields <$> lines)) = Ok fis
         ∧ st_faces st' = st_faces st ++ concat (triangulate <$> fis).
Proof.
  revert st w. induction lines as [|line lines IH]; intros st w Hrun;
    simpl in Hrun.
  - injection Hrun as <- <-. exists []. by rewrite app_nil_r.
  - apply bind_inv_Ok in Hrun as (st1 & w1 & Hline & Hrest).
    apply process_line_faces in Hline as (fis1 & Hfis1 & Hst1).
    apply IH in Hrest as (fis2 & Hfis2 & Hst').
    exists (fis1 ++ fis2). split.
    + rewrite fmap_cons.
      replace (fields line :: (fields <$> lines))
        with ([fields line] ++ (fields <$> lines)) by done.
      rewrite filter_app, res_mapM_app, Hfis1. simpl.
      unfold mbind at 1, res_bind. by rewrite Hfis2.
    + rewrite Hst', Hst1, fmap_app, concat_app. by rewrite app_assoc.
Qed.

(** The vertices and colours after a line, and after the loop. *)
Lemma process_line_colors (line : string) (st st' : parser_state) (w w' : world) :
  process_line line st w = (Ok st', w') →
  ∃ vs cs, st_vertices st' = st_vertices st ++ vs ∧
           st_colors st' = st_colors st ++ cs ∧
           length vs = length cs ∧
           Forall2 is_color_of
             (filter (λ parts, is_v parts && (4 <=? length parts)%nat = true)
                     [fields line]) cs ∧
           (parsable_vertex (fields line) = false → vs = []).
Proof.
  destruct (process_line_cases line st w)
    as [[Hv ->] | [(Hv & Hf & ->) | (Hv & Hf & ->)]].
  - intros (_ & _ & [(Hlen & Hnum & v & c & -> & -> & Hc) | (Hlen & -> & ->)])%parse_vertex_Ok.
    + apply Nat.leb_le in Hlen. exists [v], [c].
      rewrite filter_cons_True, filter_nil by (by rewrite Hv, Hlen).
      repeat split; try done.
      * apply Forall2_cons_2; [done | apply Forall2_nil_2].
      * unfold parsable_vertex. by rewrite Hv, Hlen, Hnum.
    + apply Nat.leb_gt in Hlen. exists [], [].
      rewrite filter_cons_False, filter_nil by (by rewrite Hv, Hlen).
      rewrite !app_nil_r. repeat split; try done; try apply Forall2_nil_2.
  - intros (_ & -> & -> & _)%parse_face_Ok. exists [], [].
    rewrite filter_cons_False, filter_nil by (by rewrite Hv).
    rewrite !app_nil_r. repeat split; try done; try apply Forall2_nil_2.
  - intros [= <- <-]. exists [], [].
    rewrite filter_cons_False, filter_nil by (by rewrite Hv).
    rewrite !app_nil_r. repeat split; try done; try apply Forall2_nil_2.
Qed.

Lemma for_each_process_line_colors (lines : list string) (st st' : parser_state)
    (w w' : world) :
  for_each process_line lines st w = (Ok st', w') →
  ∃ vs cs, st_vertices st' = st_vertices st ++ vs ∧
           st_colors st' = st_colors st ++ cs ∧
           length vs = length cs ∧
           Forall2 is_color_of
             (filter (λ parts, is_v parts && (4 <=? length parts)%nat = true)
                     (fields <$> lines)) cs ∧
           ((∀ line, line ∈ lines → parsable_vertex (fields line) = false) →
            vs = []).
Proof.
  revert st w. induction lines as [|line lines IH]; intros st w Hrun;
    simpl in Hrun.
  - injection Hrun as <- <-. exists [], []. rewrite !app_nil_r.
    repeat split; try done; try apply Forall2_nil_2.
  - apply bind_inv_Ok in Hrun as (st1 & w1 & Hline & Hrest).
    apply process_line_colors in Hline as (vs1 & cs1 & Hv1 & Hc1 & Hl1 & HF1 & Hn1).
    apply IH in Hrest as (vs2 & cs2 & Hv2 & Hc2 & Hl2 & HF2 & Hn2).
    exists (vs1 ++ vs2), (cs1 ++ cs2).
    rewrite Hv2, Hv1, Hc2, Hc1, <- !app_assoc, !length_app, Hl1, Hl2.
    repeat split; try done.
    + rewrite fmap_cons.
      replace (fields line :: (fields <$> lines))
        with ([fields line] ++ (fields <$> lines)) by done.
      rewrite filter_app. by apply Forall2_app.
    + intros Hall. rewrite Hn1, Hn2; [done| |].
      * intros line' ?. apply Hall. by right.
      * apply Hall. by left.
Qed.

(** *** Triangulation *)

Lemma triangulate_3 (fi : face) : length fi = 3%nat → triangulate fi = [fi].
Proof. unfold triangulate. by intros ->. Qed.

Lemma triangulate_length (fi : face) :
  (3 ≤ length fi)%nat → length (triangulate fi) = (length fi - 2)%nat.
Proof.
  intros Hlen. unfold triangulate.
  destruct (Nat.eqb_spec (length fi) 3) as [->|Hne]; [done|].
  destruct (Nat.ltb_spec 3 (length fi)); [|lia].
  by rewrite length_fmap, length_seq.
Qed.

Lemma triangulate_short (fi : face) :
  (length fi < 3)%nat → triangulate fi = [].
Proof.
  intros Hlen. unfold triangulate.
  destruct (Nat.eqb_spec (length fi) 3); [lia|].
  destruct (Nat.ltb_spec 3 (length fi)); [lia | done].
Qed.

(** The fan: triangle number [i - 1] is [(fi[0], fi[i], fi[i + 1])]. *)
Lemma triangulate_fan (fi : face) (i : nat) (a b c : Z) :
  (3 < length fi)%nat → (1 ≤ i ≤ length fi - 2)%nat →
  fi !! 0%nat = Some a → fi !! i = Some b → fi !! (i + 1)%nat = Some c →
  triangulate fi !! (i - 1)%nat = Some [a; b; c].
Proof.
  unfold face in *. intros Hlen Hi Ha Hb Hc. unfold triangulate.
  destruct (Nat.eqb_spec (length fi) 3); [lia|].
  destruct (Nat.ltb_spec 3 (length fi)); [|lia].
  rewrite list_lookup_fmap, lookup_seq_lt by lia.
  replace (1 + (i - 1))%nat with i by lia.
  change (Some [nth 0 fi 0; nth i fi 0; nth (i + 1) fi 0] = Some [a; b; c]).
  by rewrite !nth_lookup, Ha, Hb, Hc.
Qed.

Lemma triangulate_triangles (fi : face) :
  Forall (λ t, length t = 3%nat) (triangulate fi).
Proof.
  unfold triangulate.
  destruct (Nat.eqb_spec (length fi) 3); [by repeat constructor|].
  destruct (3 <? length fi)%nat; [|constructor].
  apply Forall_fmap, Forall_forall. done.
Qed.

(** The count law: [n - 2] triangles for each face of [n ≥ 3] references. *)
Lemma triangulate_count (fis : list face) :
  length (concat (triangulate <$> fis))
  = sum_list ((λ fi, length fi - 2)%nat
                <$> filter (λ fi, (3 ≤ length fi)%nat) fis).
Proof.
  induction fis as [|fi fis IH]; [done|].
  rewrite fmap_cons. simpl concat. rewrite length_app, IH.
  destruct (decide (3 ≤ length fi)%nat).
  - rewrite filter_cons_True by done. simpl.
    by rewrite triangulate_length.
  - rewrite filter_cons_False by done.
    rewrite triangulate_short by lia. done.
Qed.

(** The faces that the parser returns are triangles. *)
Lemma parse_text_faces (text : string) (w w' : world) (m : mesh) :
  parse_text text w = (Ok m, w') →
  ∃ fis, res_mapM face_indices (face_records text) = Ok fis
         ∧ faces m = concat (triangulate <$> fis).
Proof.
  unfold parse_text.
  intros (st & w1 & Hloop & Hret)%bind_inv_Ok.
  unfold mret, Py_ret in Hret. injection Hret as <- <-.
  apply for_each_process_line_faces in Hloop as (fis & Hfis & Hfaces).
  exists fis. split; [done|]. simpl. by rewrite Hfaces.
Qed.

Lemma parse_text_triangles (text : string) (w w' : world) (m : mesh) :
  parse_text text w = (Ok m, w') →
  Forall (λ t, length t = 3%nat) (faces m).
Proof.
  intros (fis & _ & ->)%parse_text_faces.
  apply Forall_concat, Forall_fmap, Forall_forall.
  intros fi _. apply triangulate_triangles.
Qed.

Lemma parse_text_files (text : string) (w : world) :
  files (parse_text text w).2 = files w.
Proof.
  unfold parse_text, mbind, Py_bind.
  pose proof (for_each_process_line_files (PyStr.readlines text) parser_init w).
  by destruct (for_each _ _ _ w) as [[st|e] w'].
Qed.

Lemma parse_text_Raise (text : string) (w w' : world) (e : exn) :
  parse_text text w = (Raise e, w') → e = ValueError.
Proof.
  unfold parse_text, mbind, Py_bind.
  destruct (for_each _ _ _ w) as [[st|e'] w1] eqn:Hloop; [done|].
  intros [= -> ->]. by apply for_each_process_line_Raise in Hloop as [? _].
Qed.

Lemma parse_text_lengths (text : string) (w w' : world) (m : mesh) :
  parse_text text w = (Ok m, w') →
  length (vertices m) = length (colors m).
Proof.
  unfold parse_text. intros (st & w1 & Hloop & Hret)%bind_inv_Ok.
  unfold mret, Py_ret in Hret. injection Hret as <- <-.
  apply for_each_process_line_colors in Hloop as (vs & cs & -> & -> & ? & _).
  done.
Qed.

Lemma parse_text_unparsable (text : string) (w w' : world) (m : mesh) :
  parse_text text w = (Ok m, w') →
  (∀ parts, parts ∈ records text → parsable_vertex parts = false) →
  vertices m = [].
Proof.
  unfold parse_text. intros (st & w1 & Hloop & Hret)%bind_inv_Ok Hall.
  unfold mret, Py_ret in Hret. injection Hret as <- <-.
  apply for_each_process_line_colors in Hloop as (vs & cs & -> & _ & _ & _ & ->).
  - done.
  - intros line Hline. apply Hall. unfold records.
    apply list_elem_of_fmap. eauto.
Qed.

Lemma res_mapM_elem {A B} (f : A → res B) (l : list A) (ys : list B)
    (x : A) (y : B) :
  res_mapM f l = Ok ys → x ∈ l → f x = Ok y → y ∈ ys.
Proof.
  revert ys. induction l as [|x' l IH]; intros ys Hrun Hin Hx.
  - by apply elem_of_nil in Hin.
  - simpl in Hrun. unfold mbind, res_bind in Hrun.
    destruct (f x') as [y'|] eqn:Hx'; [|done].
    destruct (res_mapM f l) as [ys'|]; [|done].
    injection Hrun as <-. apply elem_of_cons in Hin as [->|Hin].
    + rewrite Hx in Hx'. injection Hx' as ->. by left.
    + right. by apply IH.
Qed.

(** The triangles of every face record are among the faces returned. *)
Lemma parse_text_keeps_faces (text : string) (w w' : world) (m : mesh)
    (parts : list string) (fi t : list Z) :
  parse_text text w = (Ok m, w') →
  parts ∈ face_records text → face_indices parts = Ok fi →
  t ∈ triangulate fi → t ∈ faces m.
Proof.
  intros (fis & Hfis & ->)%parse_text_faces Hparts Hfi Ht.
  apply list_elem_of_In, in_concat. exists (triangulate fi).
  split; [|by apply list_elem_of_In].
  apply list_elem_of_In, list_elem_of_fmap. exists fi. split; [done|].
  by eapply res_mapM_elem.
Qed.

(** A record that is too short leaves the three lists as they are. *)
Lemma process_line_short (line : string) (st : parser_state) (w : world) :
  short_record (fields line) = true →
  ∃ st', process_line line st w = (Ok st', w) ∧
         st_vertices st' = st_vertices st ∧
         st_colors st' = st_colors st ∧
         st_faces st' = st_faces st.
Proof.
  unfold short_record.
  destruct (process_line_cases line st w)
    as [[Hv ->] | [(Hv & Hf & ->) | (Hv & Hf & ->)]];
    rewrite Hv; [rewrite (is_v_not_f _ Hv) | rewrite Hf ..]; simpl;
    rewrite ?orb_false_r; [| |done].
  - intros Hlen%Nat.ltb_lt. unfold parse_vertex.
    destruct (Nat.leb_spec 7 (length (fields line))); [lia|].
    destruct (Nat.leb_spec 4 (length (fields line))); [lia|].
    eexists. split; [done|]. done.
  - intros [Hlen%Nat.ltb_lt Hint]%andb_prop. unfold parse_face. py_unfold.
    destruct (face_indices (fields line)) as [fi|e] eqn:Hfi.
    + eexists. split; [done|]. simpl. repeat split.
      rewrite triangulate_short, app_nil_r; [done|].
      unfold face_indices in Hfi. apply res_mapM_length in Hfi. lia.
    + apply face_indices_Raise in Hfi as [_ Hbad].
      rewrite existsb_negb_forallb, Hint in Hbad. done.
Qed.

End ParserFacts.
(** ** Properties of the parser *)

Section ParserProperties.
Context `{PyFloat}.

(** C1. Each face record with exactly three references yields one
    triangle, each face record with more yields the fan
    [(ref[0], ref[i], ref[i+1])] for successive [i], and the number of
    triangles returned is the sum of [n - 2] over the faces of [n ≥ 3]
    references; the quad [f 1 2 3 4] yields [(0,1,2)] and [(0,2,3)]. *)
Theorem fan_triangulation (text : string) (w w' : world) (m : mesh) :
  parse_text text w = (Ok m, w') →
  ∃ fis : list (list Z),
    res_mapM face_indices (face_records text) = Ok fis ∧
    faces m = concat (triangulate <$> fis) ∧
    (∀ fi, length fi = 3%nat → triangulate fi = [fi]) ∧
    (∀ fi, (3 < length fi)%nat →
       length (triangulate fi) = (length fi - 2)%nat ∧
       ∀ i a b c, (1 ≤ i ≤ length fi - 2)%nat →
         fi !! 0%nat = Some a → fi !! i = Some b → fi !! (i + 1)%nat = Some c →
         triangulate fi !! (i - 1)%nat = Some [a; b; c]) ∧
    length (faces m)
    = sum_list ((λ fi, length fi - 2)%nat
                  <$> filter (λ fi, (3 ≤ length fi)%nat) fis) ∧
    (parse_text quad_text w).1
    = Ok {| vertices := []; colors := []; faces := [[0; 1; 2]; [0; 2; 3]] |}.
Proof.
  intros (fis & Hfis & Hfaces)%parse_text_faces. exists fis.
  split; [done|]. split; [done|].
  split; [apply triangulate_3|].
  split.
  { intros fi Hlen. split; [apply triangulate_length; lia|].
    intros i a b c. by apply triangulate_fan. }
  split; [rewrite Hfaces; apply triangulate_count | reflexivity].
Qed.

(** C10. The vertices and the colours that the parser returns have the
    same length. *)
Theorem vertices_colors_same_length (text : string) (w w' : world) (m : mesh) :
  parse_text text w = (Ok m, w') →
  length (vertices m) = length (colors m).
Proof.
  apply parse_text_lengths.
Qed.

(** C7. The colours returned are, in order, those of the [v] records of
    at least four fields: fields 5 to 7 converted by [float()], as they
    are, for a record of at least seven fields, and [(1, 1, 1)] for a
    record of four to six fields. *)
Theorem vertex_colors (text : string) (w w' : world) (m : mesh) :
  parse_text text w = (Ok m, w') →
  Forall2
    (λ parts c,
       ((7 ≤ length parts)%nat →
          float_of_str (item parts 4) = Some c.1.1 ∧
          float_of_str (item parts 5) = Some c.1.2 ∧
          float_of_str (item parts 6) = Some c.2)
       ∧ ((4 ≤ length parts < 7)%nat →
          c = (float_one, float_one, float_one)))
    (vertex_records text) (colors m).
Proof.
  unfold parse_text. intros (st & w1 & Hloop & Hret)%bind_inv_Ok.
  unfold mret, Py_ret in Hret. injection Hret as <- <-.
  apply for_each_process_line_colors in Hloop as (vs & cs & _ & -> & _ & Hcs & _).
  simpl. eapply Forall2_impl; [apply Hcs|].
  intros parts c [H7 Hshort]. split; [done|]. intros [_ ?]. by apply Hshort.
Qed.

End ParserProperties.

Lemma fan_triangulation_witness :
  ∃ fis : list (list Z),
    faces Examples.quad_mesh = concat (triangulate <$> fis).
Proof.
  destruct (fan_triangulation quad_text Examples.no_files Examples.no_files
              Examples.quad_mesh eq_refl) as (fis & _ & Hfaces & _).
  by exists fis.
Defined.

Lemma vertices_colors_same_length_witness :
  length (vertices Examples.scenario_mesh) = length (colors Examples.scenario_mesh).
Proof.
  apply (vertices_colors_same_length scenario_text Examples.no_files
           (parse_text scenario_text Examples.no_files).2).
  reflexivity.
Defined.
(** ** Facts about the packager and the driver *)

Section PackagerFacts.
Context `{PyFloat}.

Lemma basename_no_sep (p : string) : OsPath.has_sep (OsPath.basename p) = false.
Proof.
  induction p as [|c p IH]; [done|].
  change (OsPath.basename (String c p))
    with (if OsPath.has_sep (String c p) then OsPath.basename p else String c p).
  by destruct (OsPath.has_sep (String c p)) eqn:Hsep.
Qed.

(** The intermediate path of an archive is not the path of the archive. *)
Lemma intermediate_of_ne (output_path : string) :
  PyStr.endswith output_path ".usdz" = true →
  intermediate_of output_path ≠ output_path.
Proof.
  intros Hends. unfold intermediate_of. rewrite Hends.
  by apply PyStrFacts.replace_usdz_ne.
Qed.

Lemma Vt_IntArray_Ok (l l' : list Z) : Vt_IntArray l = Ok l' → l' = l.
Proof. unfold Vt_IntArray. destruct (forallb _ _); by intros [= <-]. Qed.

Lemma Vt_IntArray_fits (l : list Z) :
  Forall (λ z, fits_int z = true) l → Vt_IntArray l = Ok l.
Proof.
  intros Hfits. unfold Vt_IntArray.
  by rewrite (proj2 (forallb_forall _ _)) by
    (intros z Hz%list_elem_of_In; by eapply Forall_forall in Hfits).
Qed.

Lemma author_mesh_Ok (vs cs : list vec3) (fs : list face) (um : usd_mesh) :
  author_mesh vs cs fs = Ok um →
  points um = Gf_Vec3f <$> vs ∧
  faceVertexCounts um = (λ face, Z.of_nat (length face)) <$> fs ∧
  faceVertexIndices um = concat fs ∧
  displayColor um = Gf_Vec3f <$> cs ∧
  displayOpacity um = replicate (length cs) (to_float32 float_one).
Proof.
  unfold author_mesh, mbind, res_bind.
  destruct (Vt_IntArray ((λ face, Z.of_nat (length face)) <$> fs))
    as [counts|] eqn:Hcounts; [|done].
  destruct (Vt_IntArray (concat fs)) as [indices|] eqn:Hindices; [|done].
  apply Vt_IntArray_Ok in Hcounts as ->. apply Vt_IntArray_Ok in Hindices as ->.
  intros [= <-]. simpl. by rewrite fmap_replicate.
Qed.

Lemma triangle_counts (fs : list face) :
  Forall (λ face, length face = 3%nat) fs →
  (λ face, Z.of_nat (length face)) <$> fs = replicate (length fs) 3.
Proof.
  induction 1 as [|face fs Hface _ IH]; [done|].
  rewrite fmap_cons, IH, Hface. done.
Qed.

Lemma triangle_indices_length (fs : list face) :
  Forall (λ face, length face = 3%nat) fs →
  length (concat fs) = (3 * length fs)%nat.
Proof.
  induction 1 as [|face fs Hface _ IH]; [done|].
  simpl. rewrite length_app, IH, Hface. lia.
Qed.

(** *** [create_usdz], case by case *)

(** Nothing fails and the output is an archive. *)
Lemma create_usdz_archive (E : env) (vs cs : list vec3) (fs : list face)
    (output_path : string) (w : world) (layer : usd_layer) :
  PyStr.endswith output_path ".usdz" = true →
  usd_create_ok E (intermediate_of output_path) = true →
  author_layer vs cs fs = Ok layer →
  usd_save_ok E (intermediate_of output_path) = true →
  zip_status E = ZipOk → remove_ok E = true →
  create_usdz E vs cs fs output_path w
  = (Ok tt,
     {| files :=
          delete (intermediate_of output_path)
            (<[output_path :=
                 ZipArchive
                   [ZipEntry (OsPath.basename (intermediate_of output_path))
                             ZIP_STORED (UsdFile layer)]]>
               (<[intermediate_of output_path := UsdFile layer]>
                  (<[intermediate_of output_path := UsdFile empty_layer]>
                     (files w))));
        stdout := stdout w ++ [CreatedUsd (intermediate_of output_path);
                               CreatedUsdz output_path] |}).
Proof.
  intros Hends Hcreate Hlayer Hsave Hzip Hremove.
  pose proof (intermediate_of_ne _ Hends) as Hne.
  run_unfold. rewrite Hends, Hzip, Hremove, Hcreate, Hlayer, Hsave. simpl.
  rewrite !lookup_insert_eq. simpl.
  rewrite lookup_insert_ne, lookup_insert_eq by done.
  rewrite bool_decide_eq_true_2 by eauto. simpl.
  rewrite lookup_insert_ne, lookup_insert_eq by done.
  rewrite bool_decide_eq_true_2 by eauto.
  by rewrite <- !app_assoc.
Qed.

(** The USD calls succeed and the archive cannot be written. *)
Lemma create_usdz_zip_fails (E : env) (vs cs : list vec3) (fs : list face)
    (output_path : string) (w : world) (layer : usd_layer) :
  PyStr.endswith output_path ".usdz" = true →
  usd_create_ok E (intermediate_of output_path) = true →
  author_layer vs cs fs = Ok layer →
  usd_save_ok E (intermediate_of output_path) = true →
  zip_status E ≠ ZipOk →
  ∃ w', create_usdz E vs cs fs output_path w = (Ok tt, w') ∧
        files w' !! intermediate_of output_path = Some (UsdFile layer) ∧
        stdout w' = stdout w ++ [CreatedUsd (intermediate_of output_path);
                                 WarnFailedUsdz OSError;
                                 SavedAsUsdc (intermediate_of output_path)].
Proof.
  intros Hends Hcreate Hlayer Hsave Hzip.
  pose proof (intermediate_of_ne _ Hends) as Hne.
  run_unfold. rewrite Hends, Hcreate, Hlayer, Hsave. simpl.
  destruct (zip_status E); [done| |]; simpl; eexists; (split; [done|]); simpl.
  - rewrite lookup_insert_eq. by rewrite <- !app_assoc.
  - rewrite lookup_insert_ne, lookup_insert_eq by done.
    by rewrite <- !app_assoc.
Qed.

(** The output is a layer: the path is written as it is, no archive. *)
Lemma create_usdz_layer (E : env) (vs cs : list vec3) (fs : list face)
    (output_path : string) (w : world) (layer : usd_layer) :
  PyStr.endswith output_path ".usdz" = false →
  usd_create_ok E output_path = true →
  author_layer vs cs fs = Ok layer →
  usd_save_ok E output_path = true →
  create_usdz E vs cs fs output_path w
  = (Ok tt,
     {| files := <[output_path := UsdFile layer]>
                   (<[output_path := UsdFile empty_layer]> (files w));
        stdout := stdout w ++ [CreatedUsd output_path] |}).
Proof.
  intros Hends Hcreate Hlayer Hsave. run_unfold. unfold intermediate_of.
  by rewrite Hends, Hcreate, Hlayer, Hsave.
Qed.

(** *** [main] after its checks *)

Lemma main_text (E : env) (prog input_path output_path text : string) (w : world) :
  files w !! input_path = Some (TextFile text) →
  main E [prog; input_path; output_path] w
  = (print (ReadingObj input_path);;
     m ← parse_text text;
     convert E m output_path) w.
Proof.
  intros Hfile. unfold main, convert, parse_obj_with_colors, open_read,
    os_path_exists, item.
  simpl. unfold mbind, Py_bind, print. simpl. rewrite Hfile.
  rewrite bool_decide_eq_true_2 by eauto. simpl. by rewrite Hfile.
Qed.

(** [main] on a text that parses to a mesh with vertices: the packager
    runs, after the two progress lines, and [Conversion complete!]
    follows. *)
Lemma main_mesh (E : env) (prog input_path output_path text : string)
    (w w2 : world) (m : mesh) :
  files w !! input_path = Some (TextFile text) →
  parse_text text (print (ReadingObj input_path) w).2 = (Ok m, w2) →
  vertices m ≠ [] →
  main E [prog; input_path; output_path] w
  = (create_usdz E (vertices m) (colors m) (faces m) output_path;;
     print Complete)
      {| files := files w2;
         stdout := stdout w2
                   ++ [Parsed (length (vertices m)) (length (colors m))
                              (length (faces m));
                       CreatingUsdz output_path] |}.
Proof.
  intros Hfile Hparse Hvs. rewrite (main_text _ _ _ _ _ _ Hfile).
  unfold mbind at 1, Py_bind at 1. simpl.
  unfold mbind at 1, Py_bind at 1. simpl in Hparse. rewrite Hparse.
  unfold convert.
  destruct (Nat.eqb_spec (length (vertices m)) 0) as [Hlen|_];
    [by destruct (vertices m)|].
  rewrite <- (parse_text_lengths _ _ _ _ Hparse), Nat.eqb_refl.
  unfold when, negb, mbind, Py_bind, mret, Py_ret, print. simpl.
  by rewrite <- app_assoc.
Qed.

(** [main] on a text that gives no vertex: the exit status is 1 and no
    file changes. *)
Lemma main_no_vertices (E : env) (prog input_path output_path text : string)
    (w : world) :
  files w !! input_path = Some (TextFile text) →
  (∀ parts, parts ∈ records text → parsable_vertex parts = false) →
  ∃ w', run E [prog; input_path; output_path] w = (1, w') ∧
        files w' = files w.
Proof.
  intros Hfile Hall. unfold run. rewrite (main_text _ _ _ _ _ _ Hfile).
  unfold mbind, Py_bind, print.
  pose proof (parse_text_files text
                {| files := files w;
                   stdout := stdout w ++ [ReadingObj input_path] |}) as Hfiles.
  destruct (parse_text text _) as [[m|e] w2] eqn:Hparse; simpl in Hfiles.
  - unfold convert. rewrite (parse_text_unparsable _ _ _ _ Hparse Hall).
    unfold mbind, Py_bind, print, sys_exit, raise. simpl. eauto.
  - apply parse_text_Raise in Hparse as ->. simpl. eauto.
Qed.

End PackagerFacts.
(** ** Properties of the packager and of the driver *)

Section PackagerProperties.
Context `{PyFloat}.

(** C8. A conversion to a path ending in [.usdz] in which nothing fails
    leaves at that path a ZIP archive of exactly one entry, stored without
    compression, named by the base name of the intermediate document,
    without any directory; the intermediate document is removed, and no
    other path changes. *)
Theorem archive_layout (E : env) (vs cs : list vec3) (fs : list face)
    (output_path : string) (w : world) (layer : usd_layer) :
  PyStr.endswith output_path ".usdz" = true →
  usd_create_ok E (intermediate_of output_path) = true →
  author_layer vs cs fs = Ok layer →
  usd_save_ok E (intermediate_of output_path) = true →
  zip_status E = ZipOk → remove_ok E = true →
  ∃ w', create_usdz E vs cs fs output_path w = (Ok tt, w') ∧
    files w' !! output_path
    = Some (ZipArchive
              [ZipEntry (OsPath.basename (intermediate_of output_path))
                        ZIP_STORED (UsdFile layer)]) ∧
    OsPath.has_sep (OsPath.basename (intermediate_of output_path)) = false ∧
    files w' !! intermediate_of output_path = None ∧
    (∀ path, path ≠ output_path → path ≠ intermediate_of output_path →
             files w' !! path = files w !! path).
Proof.
  intros Hends Hcreate Hlayer Hsave Hzip Hremove.
  pose proof (intermediate_of_ne _ Hends) as Hne.
  eexists. split; [by apply create_usdz_archive|]. simpl.
  split; [by rewrite lookup_delete_ne, lookup_insert_eq|].
  split; [apply basename_no_sep|].
  split; [apply lookup_delete_eq|].
  intros path Hout Hinter.
  by rewrite lookup_delete_ne, !lookup_insert_ne.
Qed.

(** C2, as the code has it. When the archive cannot be written, the
    intermediate document stays in place, [create_usdz] prints a warning
    and returns, and the driver ends with [Conversion complete!] and the
    exit status 0. *)
Theorem archive_failure_is_a_warning (E : env)
    (prog input_path output_path text : string) (w w2 : world) (m : mesh)
    (layer : usd_layer) :
  files w !! input_path = Some (TextFile text) →
  parse_text text (print (ReadingObj input_path) w).2 = (Ok m, w2) →
  vertices m ≠ [] →
  PyStr.endswith output_path ".usdz" = true →
  usd_create_ok E (intermediate_of output_path) = true →
  author_layer (vertices m) (colors m) (faces m) = Ok layer →
  usd_save_ok E (intermediate_of output_path) = true →
  zip_status E ≠ ZipOk →
  let r := run E [prog; input_path; output_path] w in
  r.1 = 0 ∧
  files r.2 !! intermediate_of output_path = Some (UsdFile layer) ∧
  ∃ out, stdout r.2
         = out ++ [CreatedUsd (intermediate_of output_path);
                   WarnFailedUsdz OSError;
                   SavedAsUsdc (intermediate_of output_path);
                   Complete].
Proof.
  intros Hfile Hparse Hvs Hends Hcreate Hlayer Hsave Hzip.
  unfold run. rewrite (main_mesh _ _ _ _ _ _ _ _ Hfile Hparse Hvs).
  set (w3 := {| files := files w2; stdout := _ |}).
  destruct (create_usdz_zip_fails E (vertices m) (colors m) (faces m)
              output_path w3 layer)
    as (w4 & Hrun & Hinter & Hout); try done.
  unfold mbind, Py_bind, print. rewrite Hrun. simpl.
  split; [done|]. split; [done|].
  exists (stdout w3). rewrite Hout, <- app_assoc. done.
Qed.

End PackagerProperties.
Section MoreProperties.
Context `{PyFloat}.

(** C4, as the code has it. A malformed record is not skipped: a [v]
    record with a converted field that is not numeric, or an [f] record
    with a reference that is not an integer, makes the parser raise
    [ValueError], whatever the other lines are. Only a record that is too
    short is passed over, and the loop goes on from the same lists. *)
Theorem malformed_record_raises (text : string) (w : world)
    (parts : list string) :
  parts ∈ records text → bad_record parts = true →
  (parse_text text w).1 = Raise ValueError ∧
  (∀ line st w0, short_record (fields line) = true →
     ∃ st', process_line line st w0 = (Ok st', w0) ∧
            st_vertices st' = st_vertices st ∧
            st_colors st' = st_colors st ∧
            st_faces st' = st_faces st).
Proof.
  intros (line & -> & Hline)%list_elem_of_fmap Hbad. split.
  - pose proof (for_each_process_line_bad _ _ parser_init w Hline Hbad) as Hloop.
    unfold parse_text, mbind, Py_bind.
    by destruct (for_each _ _ _ w) as [[st|e] w1]; simpl in *; simplify_eq.
  - intros line' st w0. apply process_line_short.
Qed.

(** C5. On an input text without any [v] record that gives a vertex, the
    driver exits with status 1 and the files are what they were: nothing
    is created. *)
Theorem no_vertices_fails (E : env) (prog input_path output_path text : string)
    (w : world) :
  files w !! input_path = Some (TextFile text) →
  (∀ parts, parts ∈ records text → parsable_vertex parts = false) →
  (run E [prog; input_path; output_path] w).1 = 1 ∧
  files (run E [prog; input_path; output_path] w).2 = files w.
Proof.
  intros Hfile Hall.
  destruct (main_no_vertices E prog input_path output_path text w Hfile Hall)
    as (w' & -> & Hfiles).
  done.
Qed.

(** A text without [v] records is a text without parsable vertex. *)
Lemma no_v_record_no_vertex (text : string) :
  (∀ parts, parts ∈ records text → is_v parts = false) →
  ∀ parts, parts ∈ records text → parsable_vertex parts = false.
Proof.
  intros Hall parts Hparts. unfold parsable_vertex. by rewrite (Hall _ Hparts).
Qed.


(** C9, on the code. For an output path ending in [.usdz] the
    intermediate path is the stem with every [.usdz] turned into [.usdc],
    followed by [.usdc]: an earlier [.usdz] is rewritten too, as in
    [models.usdz/chair.usdz]. *)
Theorem intermediate_replaces_every_usdz :
  intermediate_of "models.usdz/chair.usdz" = "models.usdc/chair.usdc" ∧
  intermediate_of "chair.usdz.usdz" = "chair.usdc.usdc" ∧
  ∀ stem, intermediate_of (stem +:+ ".usdz")
          = PyStr.replace stem ".usdz" ".usdc" +:+ ".usdc".
Proof.
  split; [reflexivity|]. split; [reflexivity|].
  intros stem. unfold intermediate_of.
  rewrite (proj2 (PyStrFacts.endswith_app _ _)) by eauto.
  apply PyStrFacts.replace_usdz_app.
Qed.

End MoreProperties.

(** ** The properties on the examples *)

Lemma vertex_colors_witness :
  Forall2
    (λ parts c,
       ((7 ≤ length parts)%nat →
          float_of_str (item parts 4) = Some c.1.1 ∧
          float_of_str (item parts 5) = Some c.1.2 ∧
          float_of_str (item parts 6) = Some c.2)
       ∧ ((4 ≤ length parts < 7)%nat →
          c = (float_one, float_one, float_one)))
    (vertex_records scenario_text) (colors Examples.scenario_mesh).
Proof.
  apply (vertex_colors scenario_text Examples.no_files
           (parse_text scenario_text Examples.no_files).2).
  reflexivity.
Defined.

Lemma archive_layout_witness :
  ∃ w', create_usdz Examples.env_ok (vertices Examples.scenario_mesh)
          (colors Examples.scenario_mesh) (faces Examples.scenario_mesh)
          "scene.usdz" Examples.scenario_world = (Ok tt, w') ∧
        files w' !! "scene.usdz"
        = Some (ZipArchive [ZipEntry "scene.usdc" ZIP_STORED
                              (UsdFile Examples.scenario_layer)]) ∧
        files w' !! "scene.usdc" = None.
Proof.
  destruct (archive_layout Examples.env_ok (vertices Examples.scenario_mesh)
              (colors Examples.scenario_mesh) (faces Examples.scenario_mesh)
              "scene.usdz" Examples.scenario_world Examples.scenario_layer
              eq_refl eq_refl eq_refl eq_refl eq_refl eq_refl)
    as (w' & Hrun & Hzip & _ & Hinter & _).
  exists w'. split; [exact Hrun|]. split; [exact Hzip | exact Hinter].
Defined.

(** C2, the claim on the code: the archive cannot be written, and the
    driver still ends with [Conversion complete!] and the exit status 0. *)
Lemma archive_failure_exits_0 :
  zip_status Examples.env_zip_fails = ZipWriteFails ∧
  (run Examples.env_zip_fails Examples.argv_scenario Examples.scenario_world).1 = 0 ∧
  last (stdout (run Examples.env_zip_fails Examples.argv_scenario
                  Examples.scenario_world).2) = Some Complete ∧
  files (run Examples.env_zip_fails Examples.argv_scenario
           Examples.scenario_world).2 !! "scene.usdz" = Some Truncated.
Proof. repeat split; reflexivity. Qed.

Lemma archive_failure_is_a_warning_witness :
  (run Examples.env_zip_fails Examples.argv_scenario Examples.scenario_world).1 = 0.
Proof.
  refine (proj1 (archive_failure_is_a_warning Examples.env_zip_fails
            "obj_to_usdz.py" "scene.obj" "scene.usdz" scenario_text
            Examples.scenario_world
            (parse_text scenario_text
               (print (ReadingObj "scene.obj") Examples.scenario_world).2).2
            Examples.scenario_mesh Examples.scenario_layer
            eq_refl eq_refl _ eq_refl eq_refl eq_refl eq_refl _)); discriminate.
Defined.

(** C3, the claim on the code: with two vertices, the face [f 1 2 3] is
    returned by the parser and written to the archive, and no warning is
    printed. *)
Lemma out_of_range_face_kept :
  (parse_text scenario_text Examples.no_files).1 = Ok Examples.scenario_mesh ∧
  length (vertices Examples.scenario_mesh) = 2%nat ∧
  faces Examples.scenario_mesh = [[0; 1; 0]; [0; 1; 2]] ∧
  (run Examples.env_ok Examples.argv_scenario Examples.scenario_world).1 = 0 ∧
  stdout (run Examples.env_ok Examples.argv_scenario Examples.scenario_world).2
  = Examples.scenario_stdout ∧
  files (run Examples.env_ok Examples.argv_scenario Examples.scenario_world).2
    !! "scene.usdz"
  = Some (ZipArchive [ZipEntry "scene.usdc" ZIP_STORED
                        (UsdFile Examples.scenario_layer)]) ∧
  faceVertexIndices Examples.scenario_usd_mesh = [0; 1; 0; 0; 1; 2].
Proof. repeat split; reflexivity. Qed.

(** C4, the claim on the code: one malformed record, and the parser raises;
    the driver exits with status 1 and writes nothing. *)
Lemma malformed_record_aborts :
  (parse_text Examples.bad_vertex_text Examples.no_files).1 = Raise ValueError ∧
  (parse_text Examples.bad_face_text Examples.no_files).1 = Raise ValueError ∧
  (run Examples.env_ok Examples.argv_scenario Examples.bad_vertex_world).1 = 1 ∧
  files (run Examples.env_ok Examples.argv_scenario Examples.bad_vertex_world).2
  = files Examples.bad_vertex_world.
Proof. repeat split; reflexivity. Qed.

Lemma malformed_record_raises_witness :
  (parse_text Examples.bad_vertex_text Examples.no_files).1 = Raise ValueError.
Proof.
  refine (proj1 (malformed_record_raises Examples.bad_vertex_text
                   Examples.no_files ["v"; "1"; "2"; "x"] _ eq_refl)).
  left.
Defined.

Lemma no_vertices_fails_witness :
  (run Examples.env_ok Examples.argv_scenario Examples.quad_world).1 = 1 ∧
  files (run Examples.env_ok Examples.argv_scenario Examples.quad_world).2
  = files Examples.quad_world.
Proof.
  apply (no_vertices_fails Examples.env_ok "obj_to_usdz.py" "scene.obj"
           "scene.usdz" quad_text Examples.quad_world eq_refl).
  intros parts Hparts. apply list_elem_of_singleton in Hparts as ->. reflexivity.
Defined.


(** ** More facts about the parser *)

Section MoreParserFacts.
Context `{PyFloat}.

Lemma parse_vertex_position (parts : list string) (st st' : parser_state)
    (w w' : world) :
  parse_vertex parts st w = (Ok st', w') → (4 ≤ length parts)%nat →
  ∃ v, st_vertices st' = st_vertices st ++ [v] ∧ is_position_of parts v.
Proof.
  unfold parse_vertex.
  destruct (7 <=? length parts)%nat eqn:H7;
    [|destruct (Nat.leb_spec 4 (length parts)); [|lia]];
    py_unfold;
    repeat match goal with
           | |- context [float_of_str ?s] =>
               let E := fresh "E" in destruct (float_of_str s) eqn:E; simpl
           end;
    try destruct (_ <=? 3); simpl; intros; simplify_eq; simpl;
    eexists; (split; [done|]); unfold is_position_of; simpl; done.
Qed.

Lemma process_line_positions (line : string) (st st' : parser_state) (w w' : world) :
  process_line line st w = (Ok st', w') →
  ∃ vs, st_vertices st' = st_vertices st ++ vs ∧
        Forall2 is_position_of
          (filter (λ parts, is_v parts && (4 <=? length parts)%nat = true)
                  [fields line]) vs.
Proof.
  destruct (process_line_cases line st w)
    as [[Hv ->] | [(Hv & Hf & ->) | (Hv & Hf & ->)]].
  - intros Hrun. destruct (Nat.leb_spec 4 (length (fields line))) as [Hlen|Hlen].
    + destruct (parse_vertex_position _ _ _ _ _ Hrun Hlen) as (v & -> & Hpos).
      exists [v]. apply Nat.leb_le in Hlen.
      rewrite filter_cons_True, filter_nil by (by rewrite Hv, Hlen).
      split; [done|]. apply Forall2_cons_2; [done | apply Forall2_nil_2].
    + apply parse_vertex_Ok in Hrun as (_ & _ & [(? & _) | (_ & -> & _)]); [lia|].
      exists []. apply Nat.leb_gt in Hlen.
      rewrite filter_cons_False, filter_nil by (by rewrite Hv, Hlen).
      rewrite app_nil_r. split; [done | apply Forall2_nil_2].
  - intros (_ & -> & _)%parse_face_Ok. exists [].
    rewrite filter_cons_False, filter_nil by (by rewrite Hv).
    rewrite app_nil_r. split; [done | apply Forall2_nil_2].
  - intros [= <- <-]. exists [].
    rewrite filter_cons_False, filter_nil by (by rewrite Hv).
    rewrite app_nil_r. split; [done | apply Forall2_nil_2].
Qed.

Lemma for_each_process_line_positions (lines : list string)
    (st st' : parser_state) (w w' : world) :
  for_each process_line lines st w = (Ok st', w') →
  ∃ vs, st_vertices st' = st_vertices st ++ vs ∧
        Forall2 is_position_of
          (filter (λ parts, is_v parts && (4 <=? length parts)%nat = true)
                  (fields <$> lines)) vs.
Proof.
  revert st w. induction lines as [|line lines IH]; intros st w Hrun;
    simpl in Hrun.
  - injection Hrun as <- <-. exists []. rewrite app_nil_r.
    split; [done | apply Forall2_nil_2].
  - apply bind_inv_Ok in Hrun as (st1 & w1 & Hline & Hrest).
    apply process_line_positions in Hline as (vs1 & Hv1 & HF1).
    apply IH in Hrest as (vs2 & Hv2 & HF2).
    exists (vs1 ++ vs2). rewrite Hv2, Hv1, <- app_assoc. split; [done|].
    rewrite fmap_cons.
    replace (fields line :: (fields <$> lines))
      with ([fields line] ++ (fields <$> lines)) by done.
    rewrite filter_app. by apply Forall2_app.
Qed.

(** X1. The vertices returned are, in order, those of the [v] records of
    at least four fields: fields 2 to 4 converted by [float()]. *)
Theorem vertex_positions (text : string) (w w' : world) (m : mesh) :
  parse_text text w = (Ok m, w') →
  Forall2 is_position_of (vertex_records text) (vertices m).
Proof.
  unfold parse_text. intros (st & w1 & Hloop & Hret)%bind_inv_Ok.
  unfold mret, Py_ret in Hret. injection Hret as <- <-.
  by apply for_each_process_line_positions in Hloop as (vs & -> & ?).
Qed.

(** *** The parser sees a text through its [v] and [f] records *)

Lemma process_line_step (line : string) (st : parser_state) :
  process_line line st = record_step (fields line) st.
Proof. apply process_line_fields. Qed.

Lemma for_each_process_line_records (lines : list string) (st : parser_state)
    (w : world) :
  for_each process_line lines st w
  = for_each record_step (fields <$> lines) st w.
Proof.
  revert st w. induction lines as [|line lines IH]; intros st w; [done|].
  rewrite fmap_cons. simpl. rewrite process_line_step.
  unfold mbind, Py_bind. destruct (record_step _ st w) as [[st'|e] w1]; [|done].
  apply IH.
Qed.

Lemma record_step_irrelevant (parts : list string) (st : parser_state) (w : world) :
  relevant parts = false → record_step parts st w = (Ok st, w).
Proof.
  unfold relevant, is_v, is_f, record_step.
  destruct parts as [|tok parts]; [done|]. simpl.
  intros [-> ->]%orb_false_elim. done.
Qed.

Lemma for_each_record_step_filter (l : list (list string)) (st : parser_state)
    (w : world) :
  for_each record_step (filter (λ parts, relevant parts = true) l) st w
  = for_each record_step l st w.
Proof.
  revert st w. induction l as [|parts l IH]; intros st w; [done|].
  destruct (relevant parts) eqn:Hrel.
  - rewrite filter_cons_True by done. simpl. unfold mbind, Py_bind.
    destruct (record_step parts st w) as [[st'|e] w1]; [apply IH | done].
  - rewrite filter_cons_False by (by rewrite Hrel). simpl.
    unfold mbind, Py_bind. rewrite record_step_irrelevant by done. apply IH.
Qed.

(** X2. Two texts with the same [v] and [f] records, in the same order,
    parse alike: the same result or the same exception, and the same
    debug lines. Blank lines, comments, other directives and the layout of
    white space do not count. *)
Theorem parse_text_by_records (text1 text2 : string) (w : world) :
  filter (λ parts, relevant parts = true) (records text1)
  = filter (λ parts, relevant parts = true) (records text2) →
  parse_text text1 w = parse_text text2 w.
Proof.
  intros Heq. unfold parse_text, mbind, Py_bind.
  rewrite !for_each_process_line_records.
  rewrite <- (for_each_record_step_filter (fields <$> PyStr.readlines text1)).
  rewrite <- (for_each_record_step_filter (fields <$> PyStr.readlines text2)).
  unfold records in Heq. by rewrite Heq.
Qed.

(** *** References with texture and normal indices *)

Lemma split_on_head (s rest : string) :
  OsPath.has_sep s = false →
  hd "" (PyStr.split_on "/" (s +:+ String "/" rest)) = s.
Proof.
  induction s as [|c s IH]; [done|].
  simpl. intros [Hc Hs]%orb_false_elim. rewrite Hc. specialize (IH Hs).
  destruct (PyStr.split_on "/" (s +:+ String "/" rest)); simpl in *; by subst.
Qed.

Lemma split_on_whole (s : string) :
  OsPath.has_sep s = false → hd "" (PyStr.split_on "/" s) = s.
Proof.
  induction s as [|c s IH]; [done|].
  simpl. intros [Hc Hs]%orb_false_elim. rewrite Hc. specialize (IH Hs).
  destruct (PyStr.split_on "/" s); simpl in *; by subst.
Qed.

(** X3. In a reference [v/vt/vn], [v/vt] or [v//vn] only [v] counts, and
    the index is [int(v) - 1] whatever its sign; a [v] that is not an
    integer raises [ValueError]. *)
Theorem vertex_index_first_component (v rest : string) :
  OsPath.has_sep v = false →
  vertex_index (v +:+ String "/" rest) = vertex_index v ∧
  vertex_index v = match PyStr.int v with
                   | Some z => Ok (z - 1)
                   | None => Raise ValueError
                   end.
Proof.
  intros Hv. unfold vertex_index.
  rewrite split_on_head, split_on_whole by done.
  split; [done|]. by destruct (PyStr.int v).
Qed.

End MoreParserFacts.

Lemma vertex_positions_witness :
  Forall2 is_position_of (vertex_records scenario_text)
          (vertices Examples.scenario_mesh).
Proof.
  apply (vertex_positions scenario_text Examples.no_files
           (parse_text scenario_text Examples.no_files).2).
  reflexivity.
Defined.

Lemma parse_text_by_records_witness :
  parse_text
    ("# a cube" +:+ String PyStr.LF ("vn 0 0 1" +:+ String PyStr.LF "  f  1 2   3 4 "))
    Examples.no_files
  = parse_text quad_text Examples.no_files.
Proof. apply parse_text_by_records. reflexivity. Defined.

Lemma vertex_index_first_component_witness :
  vertex_index "7/2/5" = vertex_index "7".
Proof. apply (vertex_index_first_component "7" "2/5"). reflexivity. Defined.

Section DebugLines.
Context `{PyFloat}.

Lemma parse_vertex_debug (parts : list string) (st : parser_state) (w : world) :
  ∃ dbg, stdout (parse_vertex parts st w).2 = stdout w ++ dbg ∧
         forallb is_debug dbg = true ∧
         match (parse_vertex parts st w).1 with
         | Ok st' => (length dbg + debug_budget st' ≤ debug_budget st)%nat
         | Raise _ => dbg = []
         end.
Proof.
  unfold parse_vertex, debug_budget.
  destruct (7 <=? length parts)%nat; [|destruct (4 <=? length parts)%nat];
    py_unfold;
    repeat match goal with
           | |- context [float_of_str ?s] =>
               let E := fresh "E" in destruct (float_of_str s) eqn:E; simpl
           end;
    try (destruct (Z.leb_spec (vertex_count st + 1) 3)); simpl;
    try (by exists []; rewrite app_nil_r; repeat split; simpl; lia);
    eexists [_]; repeat split; simpl; lia.
Qed.

Lemma process_line_debug (line : string) (st : parser_state) (w : world) :
  ∃ dbg, stdout (process_line line st w).2 = stdout w ++ dbg ∧
         forallb is_debug dbg = true ∧
         match (process_line line st w).1 with
         | Ok st' => (length dbg + debug_budget st' ≤ debug_budget st)%nat
         | Raise _ => dbg = []
         end.
Proof.
  destruct (process_line_cases line st w)
    as [[Hv ->] | [(Hv & Hf & ->) | (Hv & Hf & ->)]].
  - apply parse_vertex_debug.
  - exists []. rewrite app_nil_r. unfold parse_face, debug_budget. py_unfold.
    destruct (face_indices (fields line)); simpl; repeat split; lia.
  - exists []. rewrite app_nil_r. simpl. repeat split. lia.
Qed.

Lemma for_each_process_line_debug (lines : list string) (st : parser_state)
    (w : world) :
  ∃ dbg, stdout (for_each process_line lines st w).2 = stdout w ++ dbg ∧
         forallb is_debug dbg = true ∧
         (length dbg ≤ debug_budget st)%nat.
Proof.
  revert st w. induction lines as [|line lines IH]; intros st w; simpl.
  - exists []. rewrite app_nil_r. repeat split. simpl. lia.
  - destruct (process_line_debug line st w) as (dbg1 & Hout1 & Hdbg1 & Hbudget).
    unfold mbind, Py_bind.
    destruct (process_line line st w) as [[st1|e] w1]; simpl in *.
    + destruct (IH st1 w1) as (dbg2 & Hout2 & Hdbg2 & Hlen2).
      exists (dbg1 ++ dbg2). rewrite Hout2, Hout1, <- app_assoc, forallb_app.
      rewrite Hdbg1, Hdbg2, length_app. repeat split. lia.
    + subst dbg1. exists []. repeat split; [done|simpl; lia].
Qed.

(** X4. Whatever the text, the parser prints debug lines only, and at
    most three of them. *)
Theorem parser_prints_at_most_three_lines (text : string) (w : world) :
  ∃ dbg, stdout (parse_text text w).2 = stdout w ++ dbg ∧
         forallb is_debug dbg = true ∧ (length dbg ≤ 3)%nat.
Proof.
  destruct (for_each_process_line_debug (PyStr.readlines text) parser_init w)
    as (dbg & Hout & Hdbg & Hlen).
  exists dbg. split; [|done].
  unfold parse_text, mbind, Py_bind.
  by destruct (for_each _ _ _ w) as [[st|e] w1].
Qed.

(** X5. The layer authored from a parsed mesh is consistent: as many
    colours and opacities as points, every opacity 1.0, a count of 3 for
    every face, and three indices per face. *)
Theorem parsed_mesh_is_authored_consistently (text : string) (w w' : world)
    (m : mesh) (um : usd_mesh) :
  parse_text text w = (Ok m, w') →
  author_mesh (vertices m) (colors m) (faces m) = Ok um →
  length (displayColor um) = length (points um) ∧
  length (displayOpacity um) = length (points um) ∧
  Forall (λ o, o = to_float32 float_one) (displayOpacity um) ∧
  faceVertexCounts um = replicate (length (faces m)) 3 ∧
  length (faceVertexIndices um) = (3 * length (faces m))%nat.
Proof.
  intros Hparse (-> & -> & -> & -> & ->)%author_mesh_Ok.
  pose proof (parse_text_lengths _ _ _ _ Hparse) as Hlen.
  pose proof (parse_text_triangles _ _ _ _ Hparse) as Htri.
  rewrite !length_fmap, length_replicate, Hlen.
  repeat split.
  - apply Forall_forall. by intros o [-> _]%elem_of_replicate.
  - by apply triangle_counts.
  - by apply triangle_indices_length.
Qed.

End DebugLines.

Lemma parsed_mesh_is_authored_consistently_witness :
  faceVertexCounts Examples.scenario_usd_mesh
  = replicate (length (faces Examples.scenario_mesh)) 3.
Proof.
  apply (parsed_mesh_is_authored_consistently scenario_text Examples.no_files
           (parse_text scenario_text Examples.no_files).2
           Examples.scenario_mesh Examples.scenario_usd_mesh eq_refl eq_refl).
Defined.

(** ** Which files a run touches, and which exceptions leave it *)

Section Frames.
Context `{PyFloat}.

Lemma preserves_ret {A} (P : string → Prop) (a : A) : preserves P (mret a).
Proof. by intros w path _. Qed.

Lemma preserves_bind {A B} (P : string → Prop) (m : Py A) (k : A → Py B) :
  preserves P m → (∀ a, preserves P (k a)) → preserves P (m ≫= k).
Proof.
  intros Hm Hk w path HP. specialize (Hm w path HP).
  unfold mbind, Py_bind. destruct (m w) as [[a|e] w1]; simpl in *; [|done].
  by rewrite (Hk a w1 path HP).
Qed.

Lemma preserves_print (P : string → Prop) (m : msg) : preserves P (print m).
Proof. by intros w path _. Qed.

Lemma preserves_raise {A} (P : string → Prop) (e : exn) :
  preserves P (raise (A := A) e).
Proof. by intros w path _. Qed.

Lemma preserves_lift {A} (P : string → Prop) (r : res A) : preserves P (lift r).
Proof. by intros w path _. Qed.

Lemma preserves_when (P : string → Prop) (b : bool) (m : Py unit) :
  preserves P m → preserves P (when b m).
Proof. destruct b; [done | intros _; apply preserves_ret]. Qed.

Lemma preserves_try_except {A} (P : string → Prop) (body : Py A)
    (handler : exn → Py A) :
  preserves P body → (∀ e, preserves P (handler e)) →
  preserves P (try_except body handler).
Proof.
  intros Hbody Hhandler w path HP. specialize (Hbody w path HP).
  unfold try_except. destruct (body w) as [[a|e] w1]; simpl in *; [done|].
  destruct (is_Exception e); [|done]. by rewrite (Hhandler e w1 path HP).
Qed.

Lemma preserves_parse_text (P : string → Prop) (text : string) :
  preserves P (parse_text text).
Proof. intros w path _. by rewrite parse_text_files. Qed.

Lemma preserves_parse_obj_with_colors (P : string → Prop) (obj_path : string) :
  preserves P (parse_obj_with_colors obj_path).
Proof.
  apply preserves_bind; [|intros text; apply preserves_parse_text].
  intros w path _. unfold open_read. by destruct (files w !! obj_path) as [[]|].
Qed.

Lemma preserves_set_file (P : string → Prop) (p : string) (f : file) (w : world)
    (path : string) :
  (∀ q, P q → q ≠ p) → P path →
  files (set_file p f w) !! path = files w !! path.
Proof. intros Hp HP. simpl. rewrite lookup_insert_ne; [done|]. intros ->. by eapply Hp. Qed.

Lemma preserves_Stage_CreateNew (E : env) (P : string → Prop) (p : string) :
  (∀ q, P q → q ≠ p) → preserves P (Stage_CreateNew E p).
Proof.
  intros Hp w path HP. unfold Stage_CreateNew.
  destruct (usd_create_ok E p); [by eapply preserves_set_file | done].
Qed.

Lemma preserves_Layer_Save (E : env) (P : string → Prop) (p : string)
    (layer : usd_layer) :
  (∀ q, P q → q ≠ p) → preserves P (Layer_Save E p layer).
Proof.
  intros Hp w path HP. unfold Layer_Save.
  destruct (usd_save_ok E p); [by eapply preserves_set_file | done].
Qed.

Lemma preserves_ZipFile_write (E : env) (P : string → Prop)
    (zip_path filename arcname : string) (method : compression) :
  (∀ q, P q → q ≠ zip_path) →
  preserves P (ZipFile_write E zip_path method filename arcname).
Proof.
  intros Hp w path HP. unfold ZipFile_write.
  destruct (zip_status E); [destruct (files w !! filename)| |];
    try done; by eapply preserves_set_file.
Qed.

Lemma preserves_os_remove (E : env) (P : string → Prop) (p : string) :
  (∀ q, P q → q ≠ p) → preserves P (os_remove E p).
Proof.
  intros Hp w path HP. unfold os_remove.
  destruct (remove_ok E && _); [|done]. simpl.
  rewrite lookup_delete_ne; [done|]. intros ->. by eapply Hp.
Qed.

Lemma preserves_create_usdz (E : env) (vs cs : list vec3) (fs : list face)
    (output_path : string) :
  preserves (λ path, path ≠ output_path ∧ path ≠ intermediate_of output_path)
            (create_usdz E vs cs fs output_path).
Proof.
  unfold create_usdz.
  apply preserves_bind; [apply preserves_Stage_CreateNew; by intros q [_ ?]|].
  intros _. apply preserves_bind; [apply preserves_lift|].
  intros layer. apply preserves_bind; [apply preserves_Layer_Save; by intros q [_ ?]|].
  intros _. apply preserves_bind; [apply preserves_print|].
  intros _. apply preserves_when, preserves_try_except.
  - apply preserves_bind; [apply preserves_ZipFile_write; by intros q [? _]|].
    intros _. apply preserves_bind; [apply preserves_print|].
    intros _. apply preserves_bind; [by intros w path _|].
    intros present. apply preserves_when, preserves_os_remove. by intros q [_ ?].
  - intros e. apply preserves_bind; [apply preserves_print|].
    intros _. apply preserves_print.
Qed.

Lemma preserves_main (E : env) (argv : list string) :
  preserves (λ path, path ≠ item argv 2 ∧ path ≠ intermediate_of (item argv 2))
            (main E argv).
Proof.
  unfold main. destruct (negb _).
  { apply preserves_bind; [apply preserves_print | intros _; apply preserves_raise]. }
  apply preserves_bind; [by intros w path _|].
  intros present. destruct (negb present).
  { apply preserves_bind; [apply preserves_print | intros _; apply preserves_raise]. }
  apply preserves_bind; [apply preserves_print|]. intros _.
  apply preserves_bind; [apply preserves_parse_obj_with_colors|]. intros m.
  apply preserves_bind; [apply preserves_print|]. intros _.
  destruct (_ =? 0)%nat.
  { apply preserves_bind; [apply preserves_print | intros _; apply preserves_raise]. }
  apply preserves_bind; [apply preserves_when, preserves_print|]. intros _.
  apply preserves_bind; [apply preserves_print|]. intros _.
  apply preserves_bind; [apply preserves_create_usdz|]. intros _.
  apply preserves_print.
Qed.

(** X6. A run changes no file but the one at the output path and the one
    at the intermediate path, whatever fails. *)
Theorem run_touches_two_paths (E : env) (argv : list string) (w : world)
    (path : string) :
  path ≠ item argv 2 → path ≠ intermediate_of (item argv 2) →
  files (run E argv w).2 !! path = files w !! path.
Proof.
  intros Hout Hinter. unfold run.
  pose proof (preserves_main E argv w path (conj Hout Hinter)) as Hmain.
  by destruct (main E argv w).
Qed.

(** *** Exceptions *)

Lemma raises_only_ret {A} (Q : exn → Prop) (a : A) : raises_only Q (mret a).
Proof. by intros w e w'. Qed.

Lemma raises_only_bind {A B} (Q : exn → Prop) (m : Py A) (k : A → Py B) :
  raises_only Q m → (∀ a, raises_only Q (k a)) → raises_only Q (m ≫= k).
Proof.
  intros Hm Hk w e w'. unfold mbind, Py_bind.
  destruct (m w) as [[a|e1] w1] eqn:Hrun.
  - apply Hk.
  - intros [= <- <-]. by eapply Hm.
Qed.

Lemma raises_only_print (Q : exn → Prop) (m : msg) : raises_only Q (print m).
Proof. by intros w e w'. Qed.

Lemma raises_only_raise {A} (Q : exn → Prop) (e : exn) :
  Q e → raises_only Q (raise (A := A) e).
Proof. intros HQ w e' w' [= <- _]. done. Qed.

Lemma raises_only_when (Q : exn → Prop) (b : bool) (m : Py unit) :
  raises_only Q m → raises_only Q (when b m).
Proof. destruct b; [done | intros _; apply raises_only_ret]. Qed.

(** A [try] whose body raises nothing but [Exception]s raises what its
    handler raises. *)
Lemma raises_only_try_except {A} (Q : exn → Prop) (body : Py A)
    (handler : exn → Py A) :
  raises_only (λ e, is_Exception e = true) body →
  (∀ e, raises_only Q (handler e)) →
  raises_only Q (try_except body handler).
Proof.
  intros Hbody Hhandler w e w'. unfold try_except.
  destruct (body w) as [[a|e1] w1] eqn:Hrun; [done|].
  rewrite (Hbody _ _ _ Hrun). apply Hhandler.
Qed.

Lemma raises_only_impl {A} (Q Q' : exn → Prop) (c : Py A) :
  (∀ e, Q e → Q' e) → raises_only Q c → raises_only Q' c.
Proof. intros HQ Hc w e w' Hrun. eapply HQ, Hc, Hrun. Qed.

(** The only exceptions that leave [create_usdz] are those of the USD
    calls. *)
Lemma raises_only_create_usdz (E : env) (vs cs : list vec3) (fs : list face)
    (output_path : string) :
  raises_only (λ e, e = UsdError) (create_usdz E vs cs fs output_path).
Proof.
  unfold create_usdz.
  apply raises_only_bind.
  { intros w e w'. unfold Stage_CreateNew.
    destruct (usd_create_ok E _); [done | by intros [= <- _]]. }
  intros _. apply raises_only_bind.
  { intros w e w'. unfold lift, author_layer, author_mesh, mbind, res_bind,
      Vt_IntArray.
    repeat (destruct (forallb _ _); [|by intros [= <- _]]). done. }
  intros layer. apply raises_only_bind.
  { intros w e w'. unfold Layer_Save.
    destruct (usd_save_ok E _); [done | by intros [= <- _]]. }
  intros _. apply raises_only_bind; [apply raises_only_print|].
  intros _. apply raises_only_when, raises_only_try_except.
  - apply raises_only_bind.
    { intros w e w'. unfold ZipFile_write.
      destruct (zip_status E); [destruct (files w !! _)| |];
        try done; by intros [= <- _]. }
    intros _. apply raises_only_bind; [apply raises_only_print|].
    intros _. apply raises_only_bind; [by intros w e w'|].
    intros present. apply raises_only_when.
    intros w e w'. unfold os_remove.
    destruct (remove_ok E && _); [done | by intros [= <- _]].
  - intros e. apply raises_only_bind; [apply raises_only_print|].
    intros _. apply raises_only_print.
Qed.

Lemma raises_only_main (E : env) (argv : list string) :
  raises_only (λ e, exit_status (Raise (A := unit) e) = 1) (main E argv).
Proof.
  unfold main. destruct (negb _).
  { apply raises_only_bind; [apply raises_only_print|].
    intros _. by apply raises_only_raise. }
  apply raises_only_bind; [by intros w e w'|].
  intros present. destruct (negb present).
  { apply raises_only_bind; [apply raises_only_print|].
    intros _. by apply raises_only_raise. }
  apply raises_only_bind; [apply raises_only_print|]. intros _.
  apply raises_only_bind.
  { unfold parse_obj_with_colors. apply raises_only_bind.
    - intros w e w'. unfold open_read.
      destruct (files w !! _) as [[]|]; try done; by intros [= <- _].
    - intros text w e w' ->%parse_text_Raise. done. }
  intros m. apply raises_only_bind; [apply raises_only_print|]. intros _.
  destruct (_ =? 0)%nat.
  { apply raises_only_bind; [apply raises_only_print|].
    intros _. by apply raises_only_raise. }
  apply raises_only_bind; [apply raises_only_when, raises_only_print|]. intros _.
  apply raises_only_bind; [apply raises_only_print|]. intros _.
  apply raises_only_bind; [|intros _; apply raises_only_print].
  eapply raises_only_impl; [|apply raises_only_create_usdz]. by intros e ->.
Qed.

Lemma exit_status_0_or_1_aux (E : env) (argv : list string) (w : world) :
  (main E argv w).1 = Ok tt ∨ ∃ e, (main E argv w).1 = Raise e.
Proof. destruct (main E argv w) as [[[]|e] w']; simpl; eauto. Qed.

(** X7. The exit status of a run is 0 or 1, and it is 0 exactly when
    [main] returns. *)
Theorem exit_status_0_or_1 (E : env) (argv : list string) (w : world) :
  ((run E argv w).1 = 0 ∧ (main E argv w).1 = Ok tt) ∨
  ((run E argv w).1 = 1 ∧ ∃ e, (main E argv w).1 = Raise e).
Proof.
  unfold run. pose proof (raises_only_main E argv w) as Hraise.
  destruct (main E argv w) as [[[]|e] w'] eqn:Hrun; simpl.
  - by left.
  - right. split; [by eapply Hraise | eauto].
Qed.

End Frames.

Lemma run_touches_two_paths_witness :
  files (run Examples.env_zip_fails Examples.argv_scenario
           Examples.scenario_world).2 !! "scene.obj"
  = files Examples.scenario_world !! "scene.obj".
Proof.
  apply (run_touches_two_paths Examples.env_zip_fails Examples.argv_scenario
           Examples.scenario_world "scene.obj"); discriminate.
Defined.

(** ** What a run leaves behind *)

Section Outcomes.
Context `{PyFloat}.

(** When [create_usdz] returns, the layer is on disk: at the intermediate
    path, or in the archive at the output path. *)
Lemma create_usdz_Ok (E : env) (vs cs : list vec3) (fs : list face)
    (output_path : string) (w w' : world) :
  create_usdz E vs cs fs output_path w = (Ok tt, w') →
  ∃ layer, author_layer vs cs fs = Ok layer ∧
    (files w' !! intermediate_of output_path = Some (UsdFile layer) ∨
     files w' !! output_path = Some (usdz_archive output_path layer)).
Proof.
  unfold usdz_archive. run_unfold.
  destruct (usd_create_ok E _); [|done].
  destruct (author_layer vs cs fs) as [layer|]; [|done].
  destruct (usd_save_ok E _); [|done]. simpl.
  destruct (PyStr.endswith output_path ".usdz") eqn:Hends.
  - pose proof (intermediate_of_ne _ Hends) as Hne.
    destruct (zip_status E); simpl.
    + rewrite lookup_insert_eq. simpl.
      rewrite lookup_insert_ne, lookup_insert_eq by done.
      rewrite bool_decide_eq_true_2 by eauto. simpl.
      rewrite lookup_insert_ne, lookup_insert_eq by done.
      rewrite bool_decide_eq_true_2 by eauto.
      destruct (remove_ok E); simpl; intros [= <-]; exists layer;
        (split; [done|]); simpl.
      * right. by rewrite lookup_delete_ne, lookup_insert_eq.
      * left. by rewrite lookup_insert_ne, lookup_insert_eq.
    + intros [= <-]. exists layer. split; [done|]. left. simpl.
      by rewrite lookup_insert_eq.
    + intros [= <-]. exists layer. split; [done|]. left. simpl.
      by rewrite lookup_insert_ne, lookup_insert_eq.
  - intros [= <-]. exists layer. split; [done|]. left. simpl.
    by rewrite lookup_insert_eq.
Qed.

(** What it takes for [main] to return. *)
Lemma main_Ok (E : env) (argv : list string) (w w' : world) :
  main E argv w = (Ok tt, w') →
  ∃ text m w2 w4,
    length argv = 3%nat ∧
    files w !! item argv 1 = Some (TextFile text) ∧
    parse_text text (print (ReadingObj (item argv 1)) w).2 = (Ok m, w2) ∧
    vertices m ≠ [] ∧
    create_usdz E (vertices m) (colors m) (faces m) (item argv 2)
      {| files := files w2;
         stdout := stdout w2
                   ++ [Parsed (length (vertices m)) (length (colors m))
                              (length (faces m));
                       CreatingUsdz (item argv 2)] |} = (Ok tt, w4) ∧
    w' = {| files := files w4; stdout := stdout w4 ++ [Complete] |}.
Proof.
  destruct argv as [|prog [|input_path [|output_path [|extra argv]]]];
    try (unfold main; simpl; unfold mbind, Py_bind, print, sys_exit, raise;
         simpl; discriminate).
  unfold item. simpl nth.
  destruct (files w !! input_path) as [[text| | |]|] eqn:Hfile;
    try (unfold main, parse_obj_with_colors, open_read, os_path_exists, item;
         simpl; unfold mbind, Py_bind, print, sys_exit, raise; simpl;
         rewrite Hfile; simpl;
         rewrite ?bool_decide_eq_true_2 by eauto;
         rewrite ?bool_decide_eq_false_2 by (by intros [? ?]);
         simpl; rewrite ?Hfile; discriminate).
  rewrite (main_text _ _ _ _ _ _ Hfile).
  unfold mbind at 1, Py_bind at 1. simpl.
  unfold mbind at 1, Py_bind at 1.
  destruct (parse_text text _) as [[m|e] w2] eqn:Hparse; [|done].
  destruct (decide (vertices m = [])) as [Hvs|Hne].
  { unfold convert. rewrite Hvs. unfold mbind, Py_bind, print, sys_exit, raise.
    simpl. discriminate. }
  intros Hrun.
  pose proof (main_mesh E prog input_path output_path text w w2 m Hfile Hparse Hne)
    as Hmain.
  rewrite (main_text _ _ _ _ _ _ Hfile) in Hmain.
  unfold mbind at 1, Py_bind at 1 in Hmain. simpl in Hmain.
  unfold mbind at 1, Py_bind at 1 in Hmain. rewrite Hparse in Hmain.
  rewrite Hmain in Hrun. clear Hmain.
  unfold mbind, Py_bind, print in Hrun.
  destruct (create_usdz _ _ _ _ _ _) as [[[]|e] w4] eqn:Hcreate; [|done].
  injection Hrun as <-.
  exists text, m, w2, w4. repeat split; done.
Qed.

Lemma run_exit_0 (E : env) (argv : list string) (w : world) :
  (run E argv w).1 = 0 →
  ∃ text m layer,
    files w !! item argv 1 = Some (TextFile text) ∧
    (parse_text text (print (ReadingObj (item argv 1)) w).2).1 = Ok m ∧
    vertices m ≠ [] ∧
    author_layer (vertices m) (colors m) (faces m) = Ok layer ∧
    (files (run E argv w).2 !! intermediate_of (item argv 2)
       = Some (UsdFile layer) ∨
     files (run E argv w).2 !! item argv 2
       = Some (usdz_archive (item argv 2) layer)) ∧
    last (stdout (run E argv w).2) = Some Complete.
Proof.
  intros Hexit.
  destruct (exit_status_0_or_1_aux E argv w) as [HOk | [e He]];
    [|unfold run in Hexit; destruct (main E argv w) as [r w'] eqn:Hrun;
      simpl in *; subst r; pose proof (raises_only_main E argv _ _ _ Hrun);
      simpl in *; congruence].
  unfold run in *. destruct (main E argv w) as [r w'] eqn:Hrun.
  simpl in HOk. subst r.
  apply main_Ok in Hrun as (text & m & w2 & w4 & _ & Hfile & Hparse & Hvs & Hcreate & ->).
  apply create_usdz_Ok in Hcreate as (layer & Hlayer & Hdisk).
  exists text, m, layer. rewrite Hparse. simpl.
  repeat split; try done. by rewrite last_snoc.
Qed.

(** X8. An exit status 0 means that the input is a text that parses to a
    mesh with vertices, that the script ends with [Conversion complete!]
    and that the layer of the mesh is on disk: at the intermediate path,
    or in the archive at the output path. *)
Theorem exit_0_leaves_the_layer (E : env) (argv : list string) (w : world) :
  (run E argv w).1 = 0 →
  ∃ text m layer,
    files w !! item argv 1 = Some (TextFile text) ∧
    (parse_text text (print (ReadingObj (item argv 1)) w).2).1 = Ok m ∧
    vertices m ≠ [] ∧
    author_layer (vertices m) (colors m) (faces m) = Ok layer ∧
    (files (run E argv w).2 !! intermediate_of (item argv 2)
       = Some (UsdFile layer) ∨
     files (run E argv w).2 !! item argv 2
       = Some (usdz_archive (item argv 2) layer)) ∧
    last (stdout (run E argv w).2) = Some Complete.
Proof. apply run_exit_0. Qed.

End Outcomes.

Section MoreOutcomes.
Context `{PyFloat}.

(** Once the USD calls succeed, [create_usdz] returns, whatever becomes of
    the archive. *)
Lemma create_usdz_returns (E : env) (vs cs : list vec3) (fs : list face)
    (output_path : string) (w : world) (layer : usd_layer) :
  usd_create_ok E (intermediate_of output_path) = true →
  author_layer vs cs fs = Ok layer →
  usd_save_ok E (intermediate_of output_path) = true →
  ∃ w', create_usdz E vs cs fs output_path w = (Ok tt, w').
Proof.
  intros Hcreate Hlayer Hsave. run_unfold.
  rewrite Hcreate, Hlayer, Hsave. simpl.
  destruct (PyStr.endswith output_path ".usdz"); [|eauto].
  destruct (zip_status E); simpl; [|eauto..].
  rewrite lookup_insert_eq. simpl.
  destruct (bool_decide _); [|eauto].
  destruct (remove_ok E && _); simpl; eauto.
Qed.

(** X9. With an output path that does not end in [.usdz], the layer is
    written at that path and nothing else happens: no archive, no
    intermediate file, no other file changed, and a failing archive writer
    does not matter. *)
Theorem layer_output (E : env) (prog input_path output_path text : string)
    (w w2 : world) (m : mesh) (layer : usd_layer) :
  files w !! input_path = Some (TextFile text) →
  parse_text text (print (ReadingObj input_path) w).2 = (Ok m, w2) →
  vertices m ≠ [] →
  PyStr.endswith output_path ".usdz" = false →
  usd_create_ok E output_path = true →
  author_layer (vertices m) (colors m) (faces m) = Ok layer →
  usd_save_ok E output_path = true →
  run E [prog; input_path; output_path] w
  = (0, {| files := <[output_path := UsdFile layer]> (files w);
           stdout := stdout w2
                     ++ [Parsed (length (vertices m)) (length (colors m))
                                (length (faces m));
                         CreatingUsdz output_path;
                         CreatedUsd output_path;
                         Complete] |}).
Proof.
  intros Hfile Hparse Hvs Hends Hcreate Hlayer Hsave.
  unfold run. rewrite (main_mesh _ _ _ _ _ _ _ _ Hfile Hparse Hvs).
  unfold mbind, Py_bind.
  rewrite (create_usdz_layer _ _ _ _ _ _ layer Hends Hcreate Hlayer Hsave).
  unfold print. simpl. rewrite insert_insert_eq.
  pose proof (parse_text_files text (print (ReadingObj input_path) w).2) as Hfiles.
  rewrite Hparse in Hfiles. simpl in Hfiles. rewrite Hfiles.
  by rewrite <- !app_assoc.
Qed.

(** X10. An exception leaves [create_usdz] only from a USD call: it is
    raised before anything is printed, and the file at the path of the
    archive is then what it was. *)
Theorem usd_failure_propagates (E : env) (vs cs : list vec3) (fs : list face)
    (output_path : string) (w w' : world) (e : exn) :
  create_usdz E vs cs fs output_path w = (Raise e, w') →
  e = UsdError ∧
  (usd_create_ok E (intermediate_of output_path) = false ∨
   author_layer vs cs fs = Raise UsdError ∨
   usd_save_ok E (intermediate_of output_path) = false) ∧
  stdout w' = stdout w ∧
  (PyStr.endswith output_path ".usdz" = true →
   files w' !! output_path = files w !! output_path).
Proof.
  intros Hrun.
  pose proof (raises_only_create_usdz E vs cs fs output_path _ _ _ Hrun) as ->.
  split; [done|]. revert Hrun. run_unfold.
  destruct (usd_create_ok E _) eqn:Hcreate;
    [|intros [= <-]; repeat split; auto].
  destruct (author_layer vs cs fs) as [layer|e] eqn:Hlayer; simpl.
  2:{ intros [= -> <-]. simpl. repeat split; [by right; left |].
      intros Hends. apply lookup_insert_ne. by apply intermediate_of_ne. }
  destruct (usd_save_ok E _) eqn:Hsave; simpl.
  2:{ intros [= <-]. simpl. repeat split; [by right; right |].
      intros Hends. apply lookup_insert_ne. by apply intermediate_of_ne. }
  intros Hrun. exfalso.
  destruct (create_usdz_returns E vs cs fs output_path w layer Hcreate Hlayer Hsave)
    as [w1 Hret].
  revert Hret. run_unfold. rewrite Hcreate, Hlayer, Hsave. simpl.
  by rewrite Hrun.
Qed.

(** X11. When the archive is written and the intermediate file cannot be
    removed, both files stay, and the script prints that the archive is
    created and then the warning that it failed to create it. *)
Theorem remove_failure_keeps_both (E : env) (vs cs : list vec3) (fs : list face)
    (output_path : string) (w : world) (layer : usd_layer) :
  PyStr.endswith output_path ".usdz" = true →
  usd_create_ok E (intermediate_of output_path) = true →
  author_layer vs cs fs = Ok layer →
  usd_save_ok E (intermediate_of output_path) = true →
  zip_status E = ZipOk → remove_ok E = false →
  ∃ w', create_usdz E vs cs fs output_path w = (Ok tt, w') ∧
        files w' !! output_path = Some (usdz_archive output_path layer) ∧
        files w' !! intermediate_of output_path = Some (UsdFile layer) ∧
        stdout w' = stdout w ++ [CreatedUsd (intermediate_of output_path);
                                 CreatedUsdz output_path;
                                 WarnFailedUsdz OSError;
                                 SavedAsUsdc (intermediate_of output_path)].
Proof.
  intros Hends Hcreate Hlayer Hsave Hzip Hremove.
  pose proof (intermediate_of_ne _ Hends) as Hne.
  unfold usdz_archive. run_unfold.
  rewrite Hends, Hzip, Hremove, Hcreate, Hlayer, Hsave. simpl.
  rewrite !lookup_insert_eq. simpl.
  rewrite lookup_insert_ne, lookup_insert_eq by done.
  rewrite bool_decide_eq_true_2 by eauto. simpl.
  eexists. split; [done|]. simpl.
  rewrite lookup_insert_eq, lookup_insert_ne, lookup_insert_eq by done.
  by rewrite <- !app_assoc.
Qed.

(** X12. With a number of arguments other than three, or with an input
    path at which there is no file, the script prints one line, exits with
    status 1 and changes no file. *)
Theorem early_exit (E : env) (argv : list string) (w : world) :
  length argv ≠ 3%nat ∨ files w !! item argv 1 = None →
  run E argv w
  = (1, {| files := files w;
           stdout := stdout w
                     ++ [if bool_decide (length argv = 3%nat)
                         then InputNotFound (item argv 1) else Usage] |}).
Proof.
  intros Hearly. unfold run, main.
  destruct (Nat.eqb_spec (length argv) 3) as [Hlen|Hlen]; simpl.
  - destruct Hearly as [?|Hfile]; [done|].
    rewrite bool_decide_eq_true_2 by done.
    unfold mbind, Py_bind, os_path_exists, print, sys_exit, raise.
    rewrite Hfile. by rewrite bool_decide_eq_false_2 by (by intros [? ?]).
  - by rewrite bool_decide_eq_false_2 by done.
Qed.

(** X13. A text with vertices and without any [f] record is converted all
    the same: the mesh is authored with empty face arrays, and the script
    exits with status 0 as soon as the USD calls succeed. *)
Theorem point_cloud_is_converted (E : env)
    (prog input_path output_path text : string) (w w2 : world) (m : mesh) :
  files w !! input_path = Some (TextFile text) →
  parse_text text (print (ReadingObj input_path) w).2 = (Ok m, w2) →
  vertices m ≠ [] →
  face_records text = [] →
  usd_create_ok E (intermediate_of output_path) = true →
  usd_save_ok E (intermediate_of output_path) = true →
  ∃ um, author_mesh (vertices m) (colors m) (faces m) = Ok um ∧
        faceVertexCounts um = [] ∧ faceVertexIndices um = [] ∧
        length (points um) = length (vertices m) ∧
        (run E [prog; input_path; output_path] w).1 = 0.
Proof.
  intros Hfile Hparse Hvs Hnof Hcreate Hsave.
  destruct (parse_text_faces _ _ _ _ Hparse) as (fis & Hfis & Hfaces).
  rewrite Hnof in Hfis. injection Hfis as <-. simpl in Hfaces.
  assert (author_mesh (vertices m) (colors m) (faces m)
          = Ok {| points := Gf_Vec3f <$> vertices m;
                  faceVertexCounts := [];
                  faceVertexIndices := [];
                  displayColor := Gf_Vec3f <$> colors m;
                  displayColor_interpolation := tok_vertex;
                  displayOpacity :=
                    to_float32 <$> replicate (length (colors m)) float_one;
                  displayOpacity_interpolation := tok_vertex |}) as Hmesh
    by (by rewrite Hfaces).
  eexists. split; [exact Hmesh|]. simpl. rewrite length_fmap. repeat split.
  unfold run. rewrite (main_mesh _ _ _ _ _ _ _ _ Hfile Hparse Hvs).
  unfold mbind, Py_bind.
  match goal with
  | |- context [create_usdz ?E ?vs ?cs ?fs ?out ?w3] =>
      edestruct (create_usdz_returns E vs cs fs out w3) as [w4 Hrun];
        [done | unfold author_layer, mbind, res_bind; by rewrite Hmesh | done |]
  end.
  by rewrite Hrun.
Qed.

End MoreOutcomes.

(** ** The caller: what [convert_obj_to_usdz] answers *)

Section ServerFacts.
Context `{PyFloat}.

Lemma create_usdz_zip_write_fails (E : env) (vs cs : list vec3) (fs : list face)
    (output_path : string) (w : world) (layer : usd_layer) :
  PyStr.endswith output_path ".usdz" = true →
  usd_create_ok E (intermediate_of output_path) = true →
  author_layer vs cs fs = Ok layer →
  usd_save_ok E (intermediate_of output_path) = true →
  zip_status E = ZipWriteFails →
  create_usdz E vs cs fs output_path w
  = (Ok tt,
     {| files := <[output_path := Truncated]>
                   (<[intermediate_of output_path := UsdFile layer]>
                      (<[intermediate_of output_path := UsdFile empty_layer]>
                         (files w)));
        stdout := stdout w ++ [CreatedUsd (intermediate_of output_path);
                               WarnFailedUsdz OSError;
                               SavedAsUsdc (intermediate_of output_path)] |}).
Proof.
  intros Hends Hcreate Hlayer Hsave Hzip. run_unfold.
  rewrite Hends, Hcreate, Hlayer, Hsave, Hzip. simpl. by rewrite <- !app_assoc.
Qed.

Lemma create_usdz_zip_open_fails (E : env) (vs cs : list vec3) (fs : list face)
    (output_path : string) (w : world) (layer : usd_layer) :
  PyStr.endswith output_path ".usdz" = true →
  usd_create_ok E (intermediate_of output_path) = true →
  author_layer vs cs fs = Ok layer →
  usd_save_ok E (intermediate_of output_path) = true →
  zip_status E = ZipOpenFails →
  create_usdz E vs cs fs output_path w
  = (Ok tt,
     {| files := <[intermediate_of output_path := UsdFile layer]>
                   (<[intermediate_of output_path := UsdFile empty_layer]>
                      (files w));
        stdout := stdout w ++ [CreatedUsd (intermediate_of output_path);
                               WarnFailedUsdz OSError;
                               SavedAsUsdc (intermediate_of output_path)] |}).
Proof.
  intros Hends Hcreate Hlayer Hsave Hzip. run_unfold.
  rewrite Hends, Hcreate, Hlayer, Hsave, Hzip. simpl. by rewrite <- !app_assoc.
Qed.

(** The child process on a text that parses to a mesh with vertices: its
    return code and its files are those of [create_usdz]. *)
Lemma script_process_mesh (Hs : host) (E : env)
    (prog obj_path usdz_path text : string) (fs : gmap string file) (m : mesh) :
  script_available Hs = true → pxr_available Hs = true →
  fs !! obj_path = Some (TextFile text) →
  (parse_text text {| files := fs; stdout := [ReadingObj obj_path] |}).1 = Ok m →
  vertices m ≠ [] →
  ∃ out,
    script_process Hs E [prog; obj_path; usdz_path] fs
    = (exit_status (create_usdz E (vertices m) (colors m) (faces m) usdz_path
                      {| files := fs; stdout := out |}).1,
       files (create_usdz E (vertices m) (colors m) (faces m) usdz_path
                {| files := fs; stdout := out |}).2).
Proof.
  intros Hscript Hpxr Hfile Hparse Hvs. unfold script_process, run.
  rewrite Hscript, Hpxr. simpl.
  set (w := {| files := fs; stdout := [] |}).
  destruct (parse_text text (print (ReadingObj obj_path) w).2) as [r w2] eqn:Hrun.
  simpl in Hparse, Hrun. unfold w in Hrun. simpl in Hrun.
  rewrite Hrun in Hparse. simpl in Hparse. subst r.
  pose proof (parse_text_files text {| files := fs; stdout := [ReadingObj obj_path] |})
    as Hfiles.
  rewrite Hrun in Hfiles. simpl in Hfiles.
  rewrite (main_mesh E prog obj_path usdz_path text w w2 m Hfile Hrun Hvs).
  rewrite Hfiles.
  exists (stdout w2 ++ [Parsed (length (vertices m)) (length (colors m))
                               (length (faces m));
                        CreatingUsdz usdz_path]).
  unfold mbind, Py_bind, print.
  destruct (create_usdz _ _ _ _ _ _) as [[[]|e] w4]; done.
Qed.

(** X14. On a machine where nothing fails, an OBJ text that parses to a
    mesh with vertices, whose indices fit the USD arrays, is converted:
    the answer is [True] and the output path holds the archive of its
    layer. *)
Theorem convert_succeeds (Hs : host) (E : env) (obj_path usdz_path text : string)
    (sw : server_world) (m : mesh) (layer : usd_layer) :
  mkdir_ok Hs = true → script_available Hs = true → pxr_available Hs = true →
  subprocess_status Hs = ProcessCompletes →
  server_files sw !! obj_path = Some (TextFile text) →
  (parse_text text {| files := server_files sw;
                      stdout := [ReadingObj obj_path] |}).1 = Ok m →
  vertices m ≠ [] →
  PyStr.endswith usdz_path ".usdz" = true →
  usd_create_ok E (intermediate_of usdz_path) = true →
  author_layer (vertices m) (colors m) (faces m) = Ok layer →
  usd_save_ok E (intermediate_of usdz_path) = true →
  zip_status E = ZipOk → remove_ok E = true →
  let r := convert_obj_to_usdz Hs E obj_path usdz_path sw in
  r.1 = true ∧
  server_files r.2 !! usdz_path = Some (usdz_archive usdz_path layer) ∧
  server_files r.2 !! intermediate_of usdz_path = None.
Proof.
  intros Hmkdir Hscript Hpxr Hsub Hfile Hparse Hvs Hends Hcreate Hlayer Hsave Hzip Hremove.
  pose proof (intermediate_of_ne _ Hends) as Hne.
  unfold convert_obj_to_usdz. rewrite Hmkdir, Hsub. simpl.
  destruct (script_process_mesh Hs E OBJ_TO_USDZ_SCRIPT obj_path usdz_path text
              (server_files sw) m Hscript Hpxr Hfile Hparse Hvs) as [out ->].
  rewrite (create_usdz_archive E _ _ _ usdz_path _ layer) by done. simpl.
  rewrite lookup_delete_ne, lookup_insert_eq by done.
  rewrite bool_decide_eq_true_2 by eauto. simpl.
  rewrite lookup_delete_ne, lookup_insert_eq by done.
  by rewrite lookup_delete_eq.
Qed.

(** X15. When writing the entry of the archive fails, the script still
    exits with status 0 and a file exists at the output path: the caller
    answers [True], while that file is a truncated archive and the
    intermediate document is left beside it. *)
Theorem convert_accepts_a_truncated_archive (Hs : host) (E : env)
    (obj_path usdz_path text : string) (sw : server_world) (m : mesh)
    (layer : usd_layer) :
  mkdir_ok Hs = true → script_available Hs = true → pxr_available Hs = true →
  subprocess_status Hs = ProcessCompletes →
  server_files sw !! obj_path = Some (TextFile text) →
  (parse_text text {| files := server_files sw;
                      stdout := [ReadingObj obj_path] |}).1 = Ok m →
  vertices m ≠ [] →
  PyStr.endswith usdz_path ".usdz" = true →
  usd_create_ok E (intermediate_of usdz_path) = true →
  author_layer (vertices m) (colors m) (faces m) = Ok layer →
  usd_save_ok E (intermediate_of usdz_path) = true →
  zip_status E = ZipWriteFails →
  let r := convert_obj_to_usdz Hs E obj_path usdz_path sw in
  r.1 = true ∧
  server_files r.2 !! usdz_path = Some Truncated ∧
  server_files r.2 !! intermediate_of usdz_path = Some (UsdFile layer) ∧
  server_stdout r.2
  = server_stdout sw ++ [Converting (OsPath.basename obj_path);
                         Created (OsPath.basename usdz_path)].
Proof.
  intros Hmkdir Hscript Hpxr Hsub Hfile Hparse Hvs Hends Hcreate Hlayer Hsave Hzip.
  pose proof (intermediate_of_ne _ Hends) as Hne.
  unfold convert_obj_to_usdz. rewrite Hmkdir, Hsub. simpl.
  destruct (script_process_mesh Hs E OBJ_TO_USDZ_SCRIPT obj_path usdz_path text
              (server_files sw) m Hscript Hpxr Hfile Hparse Hvs) as [out ->].
  rewrite (create_usdz_zip_write_fails E _ _ _ usdz_path _ layer) by done. simpl.
  rewrite lookup_insert_eq.
  rewrite bool_decide_eq_true_2 by eauto. simpl.
  rewrite lookup_insert_eq, lookup_insert_ne, lookup_insert_eq by done.
  by rewrite <- app_assoc.
Qed.

(** X16. When the archive cannot be opened for writing, the script exits
    with status 0 without touching the output path: the caller answers
    whether a file was there before the conversion, and that file is what
    it was. *)
Theorem convert_answers_by_a_stale_file (Hs : host) (E : env)
    (obj_path usdz_path text : string) (sw : server_world) (m : mesh)
    (layer : usd_layer) :
  mkdir_ok Hs = true → script_available Hs = true → pxr_available Hs = true →
  subprocess_status Hs = ProcessCompletes →
  server_files sw !! obj_path = Some (TextFile text) →
  (parse_text text {| files := server_files sw;
                      stdout := [ReadingObj obj_path] |}).1 = Ok m →
  vertices m ≠ [] →
  PyStr.endswith usdz_path ".usdz" = true →
  usd_create_ok E (intermediate_of usdz_path) = true →
  author_layer (vertices m) (colors m) (faces m) = Ok layer →
  usd_save_ok E (intermediate_of usdz_path) = true →
  zip_status E = ZipOpenFails →
  let r := convert_obj_to_usdz Hs E obj_path usdz_path sw in
  r.1 = bool_decide (is_Some (server_files sw !! usdz_path)) ∧
  server_files r.2 !! usdz_path = server_files sw !! usdz_path ∧
  server_files r.2 !! intermediate_of usdz_path = Some (UsdFile layer).
Proof.
  intros Hmkdir Hscript Hpxr Hsub Hfile Hparse Hvs Hends Hcreate Hlayer Hsave Hzip.
  pose proof (intermediate_of_ne _ Hends) as Hne.
  unfold convert_obj_to_usdz. rewrite Hmkdir, Hsub. simpl.
  destruct (script_process_mesh Hs E OBJ_TO_USDZ_SCRIPT obj_path usdz_path text
              (server_files sw) m Hscript Hpxr Hfile Hparse Hvs) as [out ->].
  rewrite (create_usdz_zip_open_fails E _ _ _ usdz_path _ layer) by done. simpl.
  rewrite !lookup_insert_ne by done.
  destruct (bool_decide (is_Some (server_files sw !! usdz_path))); simpl;
    by rewrite !lookup_insert_ne, ?lookup_insert_eq by done.
Qed.

(** X17. On an OBJ text without any [v] record that gives a vertex, the
    caller answers [False], prints that the conversion failed, and no file
    has changed. *)
Theorem convert_rejects_a_text_without_vertices (Hs : host) (E : env)
    (obj_path usdz_path text : string) (sw : server_world) :
  mkdir_ok Hs = true → subprocess_status Hs = ProcessCompletes →
  server_files sw !! obj_path = Some (TextFile text) →
  (∀ parts, parts ∈ records text → parsable_vertex parts = false) →
  convert_obj_to_usdz Hs E obj_path usdz_path sw
  = (false,
     {| server_files := server_files sw;
        server_stdout := server_stdout sw
                         ++ [Converting (OsPath.basename obj_path);
                             ConversionFailed] |}).
Proof.
  intros Hmkdir Hsub Hfile Hall.
  unfold convert_obj_to_usdz, script_process, server_print.
  rewrite Hmkdir, Hsub. simpl.
  destruct (script_available Hs); simpl; [|by rewrite <- app_assoc].
  destruct (pxr_available Hs); simpl; [|by rewrite <- app_assoc].
  destruct (main_no_vertices E OBJ_TO_USDZ_SCRIPT obj_path usdz_path text
              {| files := server_files sw; stdout := [] |} Hfile Hall)
    as (w' & -> & Hfiles).
  simpl in *. rewrite Hfiles. by rewrite <- app_assoc.
Qed.

(** X18. Whatever the machine and the input, an answer [True] means that
    the child process ran to its end with the return code 0, on an OBJ text
    that parses to a mesh with vertices, and that a file exists at the
    output path; the layer of the mesh is on disk, at the intermediate
    path or in the archive at the output path. *)
Theorem convert_true (Hs : host) (E : env) (obj_path usdz_path : string)
    (sw sw' : server_world) :
  convert_obj_to_usdz Hs E obj_path usdz_path sw = (true, sw') →
  mkdir_ok Hs = true ∧ script_available Hs = true ∧ pxr_available Hs = true ∧
  subprocess_status Hs = ProcessCompletes ∧
  is_Some (server_files sw' !! usdz_path) ∧
  ∃ text m layer,
    server_files sw !! obj_path = Some (TextFile text) ∧
    (parse_text text {| files := server_files sw;
                        stdout := [ReadingObj obj_path] |}).1 = Ok m ∧
    vertices m ≠ [] ∧
    author_layer (vertices m) (colors m) (faces m) = Ok layer ∧
    (server_files sw' !! intermediate_of usdz_path = Some (UsdFile layer) ∨
     server_files sw' !! usdz_path = Some (usdz_archive usdz_path layer)).
Proof.
  unfold convert_obj_to_usdz, script_process.
  destruct (mkdir_ok Hs); simpl; [|done].
  destruct (subprocess_status Hs); simpl; [|done..].
  destruct (script_available Hs); simpl; [|done].
  destruct (pxr_available Hs); simpl; [|done].
  pose proof (run_exit_0 E [OBJ_TO_USDZ_SCRIPT; obj_path; usdz_path]
                {| files := server_files sw; stdout := [] |}) as Hinv.
  destruct (run E _ _) as [code w'] eqn:Hrun. simpl in *.
  destruct (Z.eqb_spec code 0) as [->|]; simpl; [|done].
  destruct (bool_decide (is_Some (files w' !! usdz_path))) eqn:Hex; [|done].
  intros [= <-]. simpl. apply bool_decide_eq_true in Hex.
  destruct (Hinv eq_refl) as (text & m & layer & ? & ? & ? & ? & ? & _).
  repeat split; try done. exists text, m, layer. done.
Qed.

End ServerFacts.

(** ** The further properties on the examples *)

Lemma exit_0_leaves_the_layer_witness :
  last (stdout (run Examples.env_ok Examples.argv_scenario
                  Examples.scenario_world).2) = Some Complete.
Proof.
  destruct (exit_0_leaves_the_layer Examples.env_ok Examples.argv_scenario
              Examples.scenario_world eq_refl)
    as (text & m & layer & _ & _ & _ & _ & _ & Hlast).
  exact Hlast.
Defined.

Lemma layer_output_witness :
  (run Examples.env_zip_fails ["obj_to_usdz.py"; "scene.obj"; "scene.usdc"]
     Examples.scenario_world).1 = 0.
Proof.
  rewrite (layer_output Examples.env_zip_fails "obj_to_usdz.py" "scene.obj"
             "scene.usdc" scenario_text Examples.scenario_world
             (parse_text scenario_text
                (print (ReadingObj "scene.obj") Examples.scenario_world).2).2
             Examples.scenario_mesh Examples.scenario_layer
             eq_refl eq_refl ltac:(discriminate) eq_refl eq_refl eq_refl eq_refl).
  reflexivity.
Defined.

Lemma usd_failure_propagates_witness :
  files (create_usdz env_usd_fails (vertices Examples.scenario_mesh)
           (colors Examples.scenario_mesh) (faces Examples.scenario_mesh)
           "scene.usdz" Examples.scenario_world).2 !! "scene.usdz"
  = files Examples.scenario_world !! "scene.usdz".
Proof.
  destruct (usd_failure_propagates env_usd_fails
              (vertices Examples.scenario_mesh) (colors Examples.scenario_mesh)
              (faces Examples.scenario_mesh) "scene.usdz" Examples.scenario_world
              (create_usdz env_usd_fails (vertices Examples.scenario_mesh)
                 (colors Examples.scenario_mesh) (faces Examples.scenario_mesh)
                 "scene.usdz" Examples.scenario_world).2
              UsdError eq_refl) as (_ & _ & _ & Hout).
  exact (Hout eq_refl).
Defined.

Lemma remove_failure_keeps_both_witness :
  ∃ w', create_usdz env_remove_fails (vertices Examples.scenario_mesh)
          (colors Examples.scenario_mesh) (faces Examples.scenario_mesh)
          "scene.usdz" Examples.scenario_world = (Ok tt, w') ∧
        files w' !! "scene.usdc" = Some (UsdFile Examples.scenario_layer).
Proof.
  destruct (remove_failure_keeps_both env_remove_fails
              (vertices Examples.scenario_mesh) (colors Examples.scenario_mesh)
              (faces Examples.scenario_mesh) "scene.usdz" Examples.scenario_world
              Examples.scenario_layer eq_refl eq_refl eq_refl eq_refl eq_refl eq_refl)
    as (w' & Hrun & _ & Hinter & _).
  exists w'. split; [exact Hrun | exact Hinter].
Defined.

Lemma early_exit_witness :
  (run Examples.env_ok ["obj_to_usdz.py"; "missing.obj"; "scene.usdz"]
     Examples.scenario_world).1 = 1.
Proof.
  rewrite (early_exit Examples.env_ok
             ["obj_to_usdz.py"; "missing.obj"; "scene.usdz"]
             Examples.scenario_world).
  - reflexivity.
  - right. reflexivity.
Defined.

Lemma point_cloud_is_converted_witness :
  (run Examples.env_ok Examples.argv_scenario point_world).1 = 0.
Proof.
  destruct (point_cloud_is_converted Examples.env_ok "obj_to_usdz.py"
              "scene.obj" "scene.usdz" point_text point_world
              (parse_text point_text
                 (print (ReadingObj "scene.obj") point_world).2).2
              point_mesh eq_refl eq_refl ltac:(discriminate) eq_refl eq_refl eq_refl)
    as (um & _ & _ & _ & _ & Hexit).
  exact Hexit.
Defined.

Lemma convert_succeeds_witness :
  (convert_obj_to_usdz host_ok Examples.env_ok "scene.obj" "scene.usdz"
     scenario_server).1 = true.
Proof.
  exact (proj1 (convert_succeeds host_ok Examples.env_ok "scene.obj"
                  "scene.usdz" scenario_text scenario_server
                  Examples.scenario_mesh Examples.scenario_layer
                  eq_refl eq_refl eq_refl eq_refl eq_refl eq_refl
                  ltac:(discriminate)
                  eq_refl eq_refl eq_refl eq_refl eq_refl eq_refl)).
Defined.

Lemma convert_accepts_a_truncated_archive_witness :
  (convert_obj_to_usdz host_ok Examples.env_zip_fails "scene.obj" "scene.usdz"
     scenario_server).1 = true.
Proof.
  exact (proj1 (convert_accepts_a_truncated_archive host_ok
                  Examples.env_zip_fails "scene.obj" "scene.usdz"
                  scenario_text scenario_server
                  Examples.scenario_mesh Examples.scenario_layer
                  eq_refl eq_refl eq_refl eq_refl eq_refl eq_refl
                  ltac:(discriminate)
                  eq_refl eq_refl eq_refl eq_refl eq_refl)).
Defined.

Lemma convert_answers_by_a_stale_file_witness :
  (convert_obj_to_usdz host_ok env_zip_cannot_open "scene.obj" "scene.usdz"
     scenario_server).1
  = bool_decide (is_Some (server_files scenario_server !! "scene.usdz")).
Proof.
  exact (proj1 (convert_answers_by_a_stale_file host_ok env_zip_cannot_open
                  "scene.obj" "scene.usdz" scenario_text scenario_server
                  Examples.scenario_mesh Examples.scenario_layer
                  eq_refl eq_refl eq_refl eq_refl eq_refl eq_refl
                  ltac:(discriminate)
                  eq_refl eq_refl eq_refl eq_refl eq_refl)).
Defined.

Lemma convert_rejects_a_text_without_vertices_witness :
  (convert_obj_to_usdz host_ok Examples.env_ok "scene.obj" "scene.usdz"
     quad_server).1 = false.
Proof.
  rewrite (convert_rejects_a_text_without_vertices host_ok Examples.env_ok
             "scene.obj" "scene.usdz" quad_text quad_server eq_refl eq_refl
             eq_refl).
  - reflexivity.
  - intros parts Hparts. apply list_elem_of_singleton in Hparts as ->.
    reflexivity.
Defined.

Lemma convert_true_witness :
  is_Some (server_files (convert_obj_to_usdz host_ok Examples.env_ok
                           "scene.obj" "scene.usdz" scenario_server).2
             !! "scene.usdz").
Proof.
  destruct (convert_true host_ok Examples.env_ok "scene.obj" "scene.usdz"
              scenario_server
              (convert_obj_to_usdz host_ok Examples.env_ok "scene.obj"
                 "scene.usdz" scenario_server).2 eq_refl)
    as (_ & _ & _ & _ & Hfile & _).
  exact Hfile.
Defined.

(** ** Faces whose indices are out of range *)

Section OutOfRange.
Context `{PyFloat}.

Lemma author_mesh_fits (vs cs : list vec3) (fs : list face) :
  Forall (λ face, length face = 3%nat) fs →
  Forall (λ idx, fits_int idx = true) (concat fs) →
  author_mesh vs cs fs
  = Ok {| points := Gf_Vec3f <$> vs;
          faceVertexCounts := replicate (length fs) 3;
          faceVertexIndices := concat fs;
          displayColor := Gf_Vec3f <$> cs;
          displayColor_interpolation := tok_vertex;
          displayOpacity := to_float32 <$> replicate (length cs) float_one;
          displayOpacity_interpolation := tok_vertex |}.
Proof.
  intros Htri Hfits. unfold author_mesh.
  rewrite (triangle_counts _ Htri).
  rewrite (Vt_IntArray_fits (replicate (length fs) 3))
    by (by apply Forall_replicate).
  by rewrite (Vt_IntArray_fits _ Hfits).
Qed.

Lemma author_mesh_overflow (vs cs : list vec3) (fs : list face) :
  ¬ Forall (λ idx, fits_int idx = true) (concat fs) →
  author_mesh vs cs fs = Raise UsdError.
Proof.
  intros Hfits. unfold author_mesh, mbind, res_bind, Vt_IntArray.
  destruct (forallb fits_int ((λ face, Z.of_nat (length face)) <$> fs));
    [|done].
  destruct (forallb fits_int (concat fs)) eqn:Hall; [|done].
  destruct Hfits. apply Forall_forall. intros idx Hidx%list_elem_of_In.
  by eapply forallb_forall in Hall.
Qed.

(** When the layer cannot be authored, [create_usdz] raises. *)
Lemma create_usdz_author_fails (E : env) (vs cs : list vec3) (fs : list face)
    (output_path : string) (w : world) (e : exn) :
  author_layer vs cs fs = Raise e →
  ∃ w', create_usdz E vs cs fs output_path w = (Raise UsdError, w').
Proof.
  intros Hlayer.
  destruct (create_usdz E vs cs fs output_path w) as [[[]|e'] w'] eqn:Hrun.
  - apply create_usdz_Ok in Hrun as (layer & Hlayer' & _). congruence.
  - rewrite (raises_only_create_usdz _ _ _ _ _ _ _ _ Hrun). eauto.
Qed.

(** C3, as the code has it. Nothing compares an index with the number of
    vertices. The triangles of every face record are among the faces
    returned, whatever their indices. When every index fits the C integers
    of the USD array, the packager writes the indices of all the faces as
    they are and the conversion goes on: once the USD calls succeed the
    script exits with status 0 and the layer is on disk. An index that
    does not fit makes the script exit with status 1. *)
Theorem out_of_range_face_is_packaged (E : env)
    (prog input_path output_path text : string) (w w2 : world) (m : mesh) :
  files w !! input_path = Some (TextFile text) →
  parse_text text (print (ReadingObj input_path) w).2 = (Ok m, w2) →
  vertices m ≠ [] →
  (∀ parts fi t, parts ∈ face_records text → face_indices parts = Ok fi →
                 t ∈ triangulate fi → t ∈ faces m) ∧
  (Forall (λ idx, fits_int idx = true) (concat (faces m)) →
   ∃ um layer,
     author_mesh (vertices m) (colors m) (faces m) = Ok um ∧
     faceVertexIndices um = concat (faces m) ∧
     author_layer (vertices m) (colors m) (faces m) = Ok layer ∧
     prims layer = [("/World/Mesh", um)] ∧
     (usd_create_ok E (intermediate_of output_path) = true →
      usd_save_ok E (intermediate_of output_path) = true →
      (run E [prog; input_path; output_path] w).1 = 0 ∧
      (files (run E [prog; input_path; output_path] w).2
         !! intermediate_of output_path = Some (UsdFile layer) ∨
       files (run E [prog; input_path; output_path] w).2
         !! output_path = Some (usdz_archive output_path layer)))) ∧
  (¬ Forall (λ idx, fits_int idx = true) (concat (faces m)) →
   (run E [prog; input_path; output_path] w).1 = 1).
Proof.
  intros Hfile Hparse Hvs.
  pose proof (parse_text_triangles _ _ _ _ Hparse) as Htri.
  split; [|split].
  - intros parts fi t.
    by apply (parse_text_keeps_faces text
                (print (ReadingObj input_path) w).2 w2).
  - intros Hfits.
    pose proof (author_mesh_fits (vertices m) (colors m) (faces m) Htri Hfits)
      as Hmesh.
    eexists _, _. split; [exact Hmesh|]. split; [done|].
    split; [unfold author_layer, mbind, res_bind; by rewrite Hmesh|].
    split; [done|]. intros Hcreate Hsave.
    unfold run. rewrite (main_mesh _ _ _ _ _ _ _ _ Hfile Hparse Hvs).
    unfold mbind, Py_bind.
    match goal with
    | |- context [create_usdz ?E ?vs ?cs ?fs ?out ?w3] =>
        edestruct (create_usdz_returns E vs cs fs out w3) as [w4 Hrun];
          [done | unfold author_layer, mbind, res_bind; by rewrite Hmesh
          | done |]
    end.
    rewrite Hrun. simpl. split; [done|].
    apply create_usdz_Ok in Hrun as (layer & Hlayer & Hdisk).
    unfold author_layer, mbind, res_bind in Hlayer. rewrite Hmesh in Hlayer.
    by injection Hlayer as <-.
  - intros Hfits.
    pose proof (author_mesh_overflow (vertices m) (colors m) (faces m) Hfits)
      as Hmesh.
    unfold run. rewrite (main_mesh _ _ _ _ _ _ _ _ Hfile Hparse Hvs).
    unfold mbind, Py_bind.
    match goal with
    | |- context [create_usdz ?E ?vs ?cs ?fs ?out ?w3] =>
        edestruct (create_usdz_author_fails E vs cs fs out w3) as [w4 Hrun];
          [unfold author_layer, mbind, res_bind; by rewrite Hmesh|]
    end.
    by rewrite Hrun.
Qed.

End OutOfRange.

Lemma out_of_range_face_is_packaged_witness :
  [0; 1; 2] ∈ faces Examples.scenario_mesh ∧
  (run Examples.env_ok Examples.argv_scenario Examples.scenario_world).1 = 0.
Proof.
  destruct (out_of_range_face_is_packaged Examples.env_ok "obj_to_usdz.py"
              "scene.obj" "scene.usdz" scenario_text Examples.scenario_world
              (parse_text scenario_text
                 (print (ReadingObj "scene.obj") Examples.scenario_world).2).2
              Examples.scenario_mesh eq_refl eq_refl ltac:(discriminate))
    as (Hkeep & Hfits & _).
  split.
  - apply (Hkeep ["f"; "1"; "2"; "3"] [0; 1; 2] [0; 1; 2]).
    + apply list_elem_of_In. vm_compute. right. left. reflexivity.
    + reflexivity.
    + apply list_elem_of_In. vm_compute. left. reflexivity.
  - destruct Hfits as (um & layer & _ & _ & _ & _ & Hrun).
    + repeat constructor.
    + exact (proj1 (Hrun eq_refl eq_refl)).
Defined.
